(** * ESG portfolio optimiser: the data pipeline of [project.py]

    A shallow embedding of the pandas-level glue of [project.py]
    ([load_all_data], [clean_data], [load_price_data], [run_ef_model]) and
    the properties its specification states about it.

    Data frames are modelled column-major, the way pandas stores them: an
    index and an ordered list of labelled columns.  Every pandas call of the
    source returns a fresh object; [clean_data] is therefore written in a
    small state-and-exception monad over a store of frames, so that the
    absence of in-place updates is a theorem and not an artefact of the
    modelling language. *)

From Stdlib Require Import String List ZArith QArith Bool Lia Arith.
From Stdlib Require Import Permutation Sorted Lqa Finite DecimalString.
Import ListNotations.
Local Close Scope Q_scope.
Local Open Scope string_scope.
Local Open Scope list_scope.

Set Implicit Arguments.

(** ** Values *)

(** A cell of a frame.  Floats are represented by the rational they denote
    (comparison of finite floats is exact); [VNaN] is pandas' missing value
    (NaN / None). *)
Inductive cell : Type :=
| VNum (q : Q)
| VStr (s : string)
| VNaN.

(** The Python exceptions the pipeline can propagate. *)
Inductive exn : Type :=
| KeyError (label : string)
| TypeError
| ValueError
| IndexError
| AttributeError (name : string)
| UnboundLocalError (name : string)
| ReferenceError
| ExternalError (msg : string).

Inductive result (A : Type) : Type :=
| Ok (a : A)
| Raise (e : exn).
Arguments Ok {A} a.
Arguments Raise {A} e.

Definition rbind {A B} (r : result A) (k : A -> result B) : result B :=
  match r with
  | Ok a => k a
  | Raise e => Raise e
  end.

Declare Scope result_scope.
Delimit Scope result_scope with result.
Notation "x <- c1 ;; c2" := (rbind c1 (fun x => c2))
  (at level 61, c1 at next level, right associativity) : result_scope.

Fixpoint mapM {A B} (f : A -> result B) (xs : list A) : result (list B) :=
  match xs with
  | [] => Ok []
  | x :: xs' =>
      (y <- f x ;; ys <- mapM f xs' ;; Ok (y :: ys))%result
  end.

(** ** Series and frames *)

Abbreviation Series := (list cell) (only parsing).

Record DataFrame : Type := mkDataFrame {
  index : list Z;
  data : list (string * Series)
}.

Definition columns (df : DataFrame) : list string := map fst (data df).
Definition nrows (df : DataFrame) : nat := length (index df).

Definition has_label (labels : list string) (l : string) : bool :=
  existsb (String.eqb l) labels.

(** The model covers frames with distinct column labels whose columns all
    have the length of the index. *)
Definition well_formed (df : DataFrame) : Prop :=
  NoDup (columns df) /\
  Forall (fun c => length (snd c) = nrows df) (data df).

Definition notna (c : cell) : bool :=
  match c with
  | VNaN => false
  | _ => true
  end.

(** [xs[mask]]: the positions where the mask is true. *)
Fixpoint select {A} (mask : list bool) (xs : list A) : list A :=
  match mask, xs with
  | b :: mask', x :: xs' =>
      if b then x :: select mask' xs' else select mask' xs'
  | _, _ => []
  end.

(** ** Joining and sorting (used by [load_all_data]) *)

(** Equality of join keys: pandas matches missing keys with each other. *)
Definition cell_eqb (a b : cell) : bool :=
  match a, b with
  | VNum p, VNum q => Qeq_bool p q
  | VStr s, VStr t => String.eqb s t
  | VNaN, VNaN => true
  | _, _ => false
  end.

(** Order used by [sort_values]: missing values last. *)
Definition cell_leb (a b : cell) : bool :=
  match a, b with
  | _, VNaN => true
  | VNaN, _ => false
  | VNum p, VNum q => Qle_bool p q
  | VStr s, VStr t => String.leb s t
  | VNum _, VStr _ => true
  | VStr _, VNum _ => false
  end.

Definition is_str (c : cell) : bool :=
  match c with VStr _ | VNaN => true | VNum _ => false end.
Definition is_num (c : cell) : bool :=
  match c with VNum _ | VNaN => true | VStr _ => false end.

(** Python refuses to order a string against a number. *)
Definition comparable (s : Series) : bool :=
  forallb is_str s || forallb is_num s.

Definition positions {A} (xs : list A) : list nat := seq 0 (length xs).

(** [series.iloc[idx]] *)
Definition take (idx : list nat) (s : Series) : Series :=
  map (fun i => nth i s VNaN) idx.

Definition take_rows (idx : list nat) (df : DataFrame) : DataFrame :=
  {| index := map (fun i => nth i (index df) 0%Z) idx;
     data := map (fun c => (fst c, take idx (snd c))) (data df) |}.

(** The pairs (left position, right position) with equal keys, in the order
    of the left keys. *)
Definition join_pairs (lkey rkey : Series) : list (nat * nat) :=
  flat_map
    (fun i =>
       map (fun j => (i, j))
         (filter (fun j => cell_eqb (nth i lkey VNaN) (nth j rkey VNaN))
            (positions rkey)))
    (positions lkey).

(** A label shared by both sides (other than the key) gets a suffix. *)
Definition suffixed (on : string) (others : list string) (suffix : string)
    (label : string) : string :=
  if negb (String.eqb label on) && has_label others label
  then String.append label suffix
  else label.

(** The columns of a join along [pairs]: row [k] is made of row
    [fst pairs[k]] of the left table, followed by row [snd pairs[k]] of the
    right table without its key. *)
Definition joined_columns (left right : DataFrame) (on : string)
    (pairs : list (nat * nat)) : list (string * Series) :=
  map (fun c => (suffixed on (columns right) "_x" (fst c),
                 take (map fst pairs) (snd c)))
    (data left)
  ++
  map (fun c => (suffixed on (columns left) "_y" (fst c),
                 take (map snd pairs) (snd c)))
    (filter (fun c => negb (String.eqb (fst c) on)) (data right)).

Fixpoint insert_by (x : cell * nat) (l : list (cell * nat))
  : list (cell * nat) :=
  match l with
  | [] => [x]
  | y :: l' =>
      if cell_leb (fst x) (fst y) then x :: l else y :: insert_by x l'
  end.

Definition sort_keyed (l : list (cell * nat)) : list (cell * nat) :=
  fold_right insert_by [] l.

Definition argsort (key : Series) : list nat :=
  map snd (sort_keyed (combine key (positions key))).

Module pd.

(** [df[label]]: the column of that label (the first one; the model is
    about frames with distinct labels, see [well_formed]). *)
Definition getitem (df : DataFrame) (label : string) : result Series :=
  match find (fun c => String.eqb (fst c) label) (data df) with
  | Some c => Ok (snd c)
  | None => Raise (KeyError label)
  end.

(** [series.isin(values)] for a list of labels, as the sector multiselect
    of the sidebar returns: only a text cell can be one of them. *)
Definition isin_cell (values : list string) (c : cell) : bool :=
  match c with
  | VStr s => has_label values s
  | _ => false
  end.

Definition isin (s : Series) (values : list string) : list bool :=
  map (isin_cell values) s.

(** [~mask] *)
Definition invert (mask : list bool) : list bool := map negb mask.

(** [series > threshold]: NaN compares false, a string raises. *)
Definition gt_cell (threshold : Z) (c : cell) : result bool :=
  match c with
  | VNum q => Ok (negb (Qle_bool q (inject_Z threshold)))
  | VNaN => Ok false
  | VStr _ => Raise TypeError
  end.

Definition gt (s : Series) (threshold : Z) : result (list bool) :=
  mapM (gt_cell threshold) s.

(** [df[mask]] for a boolean mask computed from [df] itself, hence on the
    same index: the rows are selected by position. *)
Definition getitem_mask (df : DataFrame) (mask : list bool)
  : result DataFrame :=
  if Nat.eqb (length mask) (nrows df) then
    Ok {| index := select mask (index df);
          data := map (fun c => (fst c, select mask (snd c))) (data df) |}
  else Raise ValueError.

(** [df.drop(columns=labels)]: every label must be present (pandas names
    all the missing labels in its [KeyError], the model the first). *)
Definition drop (df : DataFrame) (labels : list string)
  : result DataFrame :=
  match find (fun l => negb (has_label (columns df) l)) labels with
  | Some l => Raise (KeyError l)
  | None =>
      Ok {| index := index df;
            data := filter (fun c => negb (has_label labels (fst c)))
                      (data df) |}
  end.

(** [df.dropna(axis=1, how='all')]: a column stays when it has a value. *)
Definition dropna_columns_all (df : DataFrame) : DataFrame :=
  {| index := index df;
     data := filter (fun c => existsb notna (snd c)) (data df) |}.

(** [df.reset_index(drop=True)] *)
Definition reset_index_drop (df : DataFrame) : DataFrame :=
  {| index := map Z.of_nat (seq 0 (nrows df));
     data := data df |}.

(** [pd.merge(left, right, on=on)]: inner join (the default [how]).  Cells
    carry no dtype here: where pandas refuses to join a text key column
    with a numeric one, the model finds no equal keys. *)
Definition merge (left right : DataFrame) (on : string)
  : result DataFrame :=
  (lkey <- getitem left on ;;
   rkey <- getitem right on ;;
   let pairs := join_pairs lkey rkey in
   Ok {| index := map Z.of_nat (seq 0 (length pairs));
         data := joined_columns left right on pairs |})%result.

(** [df.sort_values(by=by)]: ascending, missing keys last.  The model
    sorts stably; pandas' default sort does not promise the order of rows
    with equal keys, and no property below depends on it. *)
Definition sort_values (df : DataFrame) (by_label : string)
  : result DataFrame :=
  (key <- getitem df by_label ;;
   if comparable key then Ok (take_rows (argsort key) df)
   else Raise TypeError)%result.

(** [df.Symbol]-style attribute access to a column. *)
Definition getattr (df : DataFrame) (name : string) : result Series :=
  match getitem df name with
  | Ok s => Ok s
  | Raise _ => Raise (AttributeError name)
  end.


End pd.

(** ** The object store *)

Definition ref := nat.
Definition store := list DataFrame.

(** Computations that may allocate frames and may raise. *)
Definition M (A : Type) : Type := store -> result A * store.

Definition ret {A} (a : A) : M A := fun h => (Ok a, h).

Definition bind {A B} (m : M A) (k : A -> M B) : M B :=
  fun h =>
    match m h with
    | (Ok a, h') => k a h'
    | (Raise e, h') => (Raise e, h')
    end.

Declare Scope store_scope.
Delimit Scope store_scope with store.
Notation "x <- c1 ;; c2" := (bind c1 (fun x => c2))
  (at level 61, c1 at next level, right associativity) : store_scope.

Definition lift {A} (r : result A) : M A := fun h => (r, h).

Definition deref (r : ref) : M DataFrame :=
  fun h =>
    match nth_error h r with
    | Some df => (Ok df, h)
    | None => (Raise ReferenceError, h)
    end.

Definition alloc (df : DataFrame) : M ref :=
  fun h => (Ok (length h), h ++ [df]).

Module st.

Definition getitem (r : ref) (label : string) : M Series :=
  (df <- deref r ;; lift (pd.getitem df label))%store.

Definition getitem_mask (r : ref) (mask : list bool) : M ref :=
  (df <- deref r ;;
   df' <- lift (pd.getitem_mask df mask) ;;
   alloc df')%store.

Definition drop (r : ref) (labels : list string) : M ref :=
  (df <- deref r ;; df' <- lift (pd.drop df labels) ;; alloc df')%store.

Definition dropna_columns_all (r : ref) : M ref :=
  (df <- deref r ;; alloc (pd.dropna_columns_all df))%store.

Definition reset_index_drop (r : ref) : M ref :=
  (df <- deref r ;; alloc (pd.reset_index_drop df))%store.

End st.

(** ** [clean_data] (project.py, lines 78-90) *)

Definition clean_data (combined_df : ref) (selected_sector : list string)
    (min_esg_score : Z) : M ref :=
  (sub_industry <- st.getitem combined_df "GICS Sub-Industry" ;;
   combined_df_filtered <-
     st.getitem_mask combined_df
       (pd.invert (pd.isin sub_industry selected_sector)) ;;
   combined_df_filtered <-
     st.drop combined_df_filtered ["SEC filings"; "CIK"; "ticker_name"] ;;
   esg_score <- st.getitem combined_df_filtered "esg_score" ;;
   above <- lift (pd.gt esg_score min_esg_score) ;;
   selected <- st.getitem_mask combined_df_filtered above ;;
   combined_df_filtered <- st.dropna_columns_all selected ;;
   combined_df_filtered <- st.reset_index_drop combined_df_filtered ;;
   ret combined_df_filtered)%store.

(** The frame a run ends with: the returned reference, read in the final
    store. *)
Definition read_back (run : result ref * store) : result DataFrame :=
  match run with
  | (Ok r, h) =>
      match nth_error h r with
      | Some out => Ok out
      | None => Raise ReferenceError
      end
  | (Raise e, _) => Raise e
  end.

(** Running [clean_data] on a frame that is the only object of the store. *)
Definition clean_data_on (combined_df : DataFrame)
    (selected_sector : list string) (min_esg_score : Z)
  : result DataFrame :=
  read_back (clean_data 0 selected_sector min_esg_score [combined_df]).

(** The frame [clean_data] computes, as a function of the input frame: the
    same statements as above, read on values instead of references. *)
Definition clean_data_frame (combined_df : DataFrame)
    (selected_sector : list string) (min_esg_score : Z)
  : result DataFrame :=
  (sub_industry <- pd.getitem combined_df "GICS Sub-Industry" ;;
   filtered1 <-
     pd.getitem_mask combined_df
       (pd.invert (pd.isin sub_industry selected_sector)) ;;
   filtered2 <- pd.drop filtered1 ["SEC filings"; "CIK"; "ticker_name"] ;;
   esg_score <- pd.getitem filtered2 "esg_score" ;;
   above <- pd.gt esg_score min_esg_score ;;
   selected <- pd.getitem_mask filtered2 above ;;
   Ok (pd.reset_index_drop (pd.dropna_columns_all selected)))%result.

(** A cell passes [> threshold] exactly when it is a number above it. *)
Definition above_threshold (threshold : Z) (c : cell) : Prop :=
  exists q, c = VNum q /\ (inject_Z threshold < q)%Q.

(** The order [sort_values] leaves a column in. *)
Definition cell_le (a b : cell) : Prop := cell_leb a b = true.

Definition keyed_le (p q : cell * nat) : Prop := cell_le (fst p) (fst q).

(** The rows [(i, j)] pair: row [i] of the left table and row [j] of the
    right table carry equal keys. *)
Definition key_match (lkey rkey : Series) (p : nat * nat) : Prop :=
  fst p < length lkey /\ snd p < length rkey /\
  cell_eqb (nth (fst p) lkey VNaN) (nth (snd p) rkey VNaN) = true.

(** [out] is the inner join of [left] and [right] on ['Symbol'], sorted by
    ['Symbol']: its rows are, each exactly once, the pairs of a left row and
    a right row with equal keys, in an order [ps] that leaves the key
    column sorted, over a fresh index. *)
Definition inner_join_sorted (left right out : DataFrame) : Prop :=
  exists lkey rkey ps,
    pd.getitem left "Symbol" = Ok lkey /\
    pd.getitem right "Symbol" = Ok rkey /\
    NoDup ps /\
    (forall p, In p ps <-> key_match lkey rkey p) /\
    index out = map Z.of_nat (seq 0 (length ps)) /\
    data out = joined_columns left right "Symbol" ps /\
    pd.getitem out "Symbol" = Ok (take (map fst ps) lkey) /\
    Sorted cell_le (take (map fst ps) lkey).

(** The cell of row [k] (by position) in the column [label]. *)
Definition cell_at (df : DataFrame) (label : string) (k : nat)
  : option cell :=
  match pd.getitem df label with
  | Ok s => nth_error s k
  | Raise _ => None
  end.

(** ** External data sources *)

(** The answer of the market-data provider: one frame per price field
    (the first level of its column index), each with a column per ticker. *)
Definition PriceData := list (string * DataFrame).

Class DataSources : Type := {
  (** [pd.read_html(url, header=0)] *)
  read_html : string -> result (list DataFrame);
  (** [pd.read_excel(filename)] *)
  read_excel : string -> result DataFrame;
  (** [yf.download(tickers, period, interval, threads=True)] *)
  yf_download : Series -> string -> string -> result PriceData
}.

Definition ESG_SCORE_FILENAME : string := "esg_scores.xlsx".

Section Loaders.
Context {sources : DataSources}.
Local Open Scope result_scope.

(** project.py, lines 60-66.  The [st.cache] decorator memoises the fetch
    and does not change what a call returns. *)
Definition load_snp_data : result DataFrame :=
  html <- read_html
            "https://en.wikipedia.org/wiki/List_of_S%26P_500_companies" ;;
  match nth_error html 0 with
  | Some df => Ok df
  | None => Raise IndexError
  end.

(** project.py, lines 68-71 *)
Definition load_esg_scores : result DataFrame :=
  read_excel ESG_SCORE_FILENAME.

(** project.py, lines 73-76 *)
Definition load_all_data : result DataFrame :=
  snp_data <- load_snp_data ;;
  esg_scores <- load_esg_scores ;;
  merged <- pd.merge snp_data esg_scores "Symbol" ;;
  sorted <- pd.sort_values merged "Symbol" ;;
  Ok (pd.reset_index_drop sorted).

Definition getitem_field (d : PriceData) (field : string)
  : result DataFrame :=
  match find (fun c => String.eqb (fst c) field) d with
  | Some c => Ok (snd c)
  | None => Raise (KeyError field)
  end.

(** project.py, lines 100-110 *)
Definition load_price_data (combined_df_filtered : DataFrame)
  : result DataFrame :=
  tickers <- pd.getattr combined_df_filtered "Symbol" ;;
  price_data <- yf_download tickers "ytd" "1D" ;;
  adj_close <- getitem_field price_data "Adj Close" ;;
  Ok (pd.dropna_columns_all adj_close).

End Loaders.

(** ** The optimiser adapter *)

(** A ticker-keyed vector, in key order (a pandas Series of floats or the
    ordered dictionary the solver returns). *)
Definition weights := list (string * Q).

(** The part of PyPortfolioOpt and of its plotting module that
    [run_ef_model] calls.  [frontier] is the state of the [CLA] object,
    which its methods update. *)
Class PyPortfolioOpt : Type := {
  covariance : Type;
  frontier : Type;
  mean_historical_return : DataFrame -> result weights;
  sample_cov : DataFrame -> result covariance;
  CLA : weights -> covariance -> Q * Q -> result frontier;
  plot_efficient_frontier : frontier -> result frontier;
  max_sharpe : frontier -> result (weights * frontier);
  min_volatility : frontier -> result (weights * frontier);
  portfolio_performance : frontier -> Q -> result (Q * Q * Q);
  (** the attributes [ef.tickers] and [(ef.lB, ef.uB)] *)
  frontier_tickers : frontier -> list string;
  frontier_bounds : frontier -> Q * Q
}.

(** What [run_ef_model] shows and returns: of the Streamlit and matplotlib
    calls only the data handed to them is kept. *)
Record ef_report : Type := {
  asset_weights : weights;   (* the returned vector *)
  clean_wts : weights;       (* the dictionary plotted and written *)
  ret_tangent : Q;
  std_tangent : Q
}.

Definition nonzero (kv : string * Q) : bool := negb (Qeq_bool (snd kv) 0).

Section Optimizer.
Context {lib : PyPortfolioOpt}.
Local Open Scope result_scope.

(** The [if]/[elif] of lines 122-125: no branch binds [asset_weights]
    for any other objective. *)
Definition solve (ef : frontier) (objective_fn : string)
  : result (option weights * frontier) :=
  if String.eqb objective_fn "Max Sharpe" then
    r <- max_sharpe ef ;; Ok (Some (fst r), snd r)
  else if String.eqb objective_fn "Min Vol" then
    r <- min_volatility ef ;; Ok (Some (fst r), snd r)
  else Ok (None, ef).

(** project.py, lines 112-147 *)
Definition run_ef_model (cleaned_adj_close : DataFrame)
    (weight_bounds : Q * Q) (objective_fn : string) (risk_free_rate : Q)
  : result ef_report :=
  let '(min_wt, max_wt) := weight_bounds in
  mu <- mean_historical_return cleaned_adj_close ;;
  Sigma <- sample_cov cleaned_adj_close ;;
  ef <- CLA mu Sigma (min_wt, max_wt) ;;
  ef <- plot_efficient_frontier ef ;;
  sol <- solve ef objective_fn ;;
  perf <- portfolio_performance (snd sol) risk_free_rate ;;
  match fst sol with
  | None => Raise (UnboundLocalError "asset_weights")
  | Some w =>
      Ok {| asset_weights := w;
            clean_wts := filter nonzero w;
            ret_tangent := fst (fst perf);
            std_tangent := snd (fst perf) |}
  end.

End Optimizer.

(** The documented behaviour of the solver that the adapter relies on:
    the solver is keyed by the columns of the price table, keeps the bounds
    it was built with, and returns weights within them up to [tol]. *)
Record SolverContract (lib : PyPortfolioOpt) (tol : Q) : Prop := {
  mu_index : forall prices mu,
    mean_historical_return prices = Ok mu -> map fst mu = columns prices;
  CLA_tickers : forall mu Sigma b ef,
    CLA mu Sigma b = Ok ef -> frontier_tickers ef = map fst mu;
  CLA_bounds : forall mu Sigma b ef,
    CLA mu Sigma b = Ok ef -> frontier_bounds ef = b;
  plot_keeps : forall ef ef',
    plot_efficient_frontier ef = Ok ef' ->
    frontier_tickers ef' = frontier_tickers ef /\
    frontier_bounds ef' = frontier_bounds ef;
  max_sharpe_weights : forall ef w ef',
    max_sharpe ef = Ok (w, ef') ->
    map fst w = frontier_tickers ef /\
    Forall (fun kv => (fst (frontier_bounds ef) - tol <= snd kv)%Q /\
                      (snd kv <= snd (frontier_bounds ef) + tol)%Q) w;
  min_volatility_weights : forall ef w ef',
    min_volatility ef = Ok (w, ef') ->
    map fst w = frontier_tickers ef /\
    Forall (fun kv => (fst (frontier_bounds ef) - tol <= snd kv)%Q /\
                      (snd kv <= snd (frontier_bounds ef) + tol)%Q) w
}.

(** ** Concrete data used in the examples *)

(** The labels [clean_data] drops. *)
Definition admin_labels : list string :=
  ["SEC filings"; "CIK"; "ticker_name"].

(** The universe {A: score 90, category X; B: score 70, category Y}, with
    the descriptive columns the constituents and score tables bring. *)
Definition universe_AB : DataFrame :=
  {| index := [0; 1]%Z;
     data :=
       [ ("Symbol", [VStr "A"; VStr "B"]);
         ("Security", [VStr "Alpha Corp"; VStr "Beta Corp"]);
         ("SEC filings", [VStr "reports"; VStr "reports"]);
         ("GICS Sub-Industry", [VStr "X"; VStr "Y"]);
         ("CIK", [VNum (inject_Z 1800); VNum (inject_Z 1801)]);
         ("ticker_name", [VStr "Alpha"; VStr "Beta"]);
         ("esg_score", [VNum (inject_Z 90); VNum (inject_Z 70)]) ] |}.

Definition filtered_A : DataFrame :=
  {| index := [0]%Z;
     data :=
       [ ("Symbol", [VStr "A"]);
         ("Security", [VStr "Alpha Corp"]);
         ("GICS Sub-Industry", [VStr "X"]);
         ("esg_score", [VNum (inject_Z 90)]) ] |}.


(** A universe that was delivered without its [CIK] column. *)
Definition universe_no_CIK : DataFrame :=
  {| index := [0; 1]%Z;
     data :=
       [ ("Symbol", [VStr "A"; VStr "B"]);
         ("SEC filings", [VStr "reports"; VStr "reports"]);
         ("GICS Sub-Industry", [VStr "X"; VStr "Y"]);
         ("ticker_name", [VStr "Alpha"; VStr "Beta"]);
         ("esg_score", [VNum (inject_Z 90); VNum (inject_Z 70)]) ] |}.

(** A price table with the tickers A, B and C, where C has no data. *)
Definition prices_ABC : DataFrame :=
  {| index := [20260102; 20260105]%Z;
     data :=
       [ ("A", [VNum (101 # 1)%Q; VNum (205 # 2)%Q]);
         ("B", [VNaN; VNum (40 # 1)%Q]);
         ("C", [VNaN; VNaN]) ] |}.

Definition prices_AB : DataFrame :=
  {| index := [20260102; 20260105]%Z;
     data :=
       [ ("A", [VNum (101 # 1)%Q; VNum (205 # 2)%Q]);
         ("B", [VNaN; VNum (40 # 1)%Q]) ] |}.

Definition constituents_example : DataFrame :=
  {| index := [0; 1; 2]%Z;
     data :=
       [ ("Symbol", [VStr "MMM"; VStr "AOS"; VStr "ABT"]);
         ("Security", [VStr "3M"; VStr "A. O. Smith"; VStr "Abbott"]);
         ("CIK",
          [VNum (66740 # 1)%Q; VNum (91142 # 1)%Q; VNum (1800 # 1)%Q]) ] |}.

Definition scores_example : DataFrame :=
  {| index := [0; 1; 2]%Z;
     data :=
       [ ("Symbol", [VStr "ABT"; VStr "ZTS"; VStr "MMM"]);
         ("esg_score",
          [VNum (85 # 1)%Q; VNum (60 # 1)%Q; VNum (72 # 1)%Q]) ] |}.

Definition scores_without_key : DataFrame :=
  {| index := [0]%Z;
     data :=
       [ ("ticker", [VStr "ABT"]); ("esg_score", [VNum (85 # 1)%Q]) ] |}.

(** Data sources that answer with the tables above. *)
Definition example_sources (scores : DataFrame) : DataSources :=
  {| read_html := fun _ => Ok [constituents_example];
     read_excel := fun _ => Ok scores;
     yf_download := fun _ _ _ =>
       Ok [("Adj Close", prices_ABC); ("Close", prices_ABC)] |}.

(** A solver that puts the first ticker at the upper bound and the others
    at the lower bound (maximum Sharpe), or every ticker at the lower bound
    (minimum volatility), and refuses empty ranges. *)
Definition bound_solver : PyPortfolioOpt :=
  {| covariance := unit;
     frontier := list string * (Q * Q);
     mean_historical_return := fun prices =>
       Ok (map (fun l => (l, 0%Q)) (columns prices));
     sample_cov := fun _ => Ok tt;
     CLA := fun mu _ b => Ok (map fst mu, b);
     plot_efficient_frontier := fun ef => Ok ef;
     max_sharpe := fun ef =>
       if Qle_bool (fst (snd ef)) (snd (snd ef))
       then Ok (match fst ef with
                | [] => []
                | l :: ls =>
                    (l, snd (snd ef)) ::
                    map (fun l' => (l', fst (snd ef))) ls
                end, ef)
       else Raise ValueError;
     min_volatility := fun ef =>
       if Qle_bool (fst (snd ef)) (snd (snd ef))
       then Ok (map (fun l => (l, fst (snd ef))) (fst ef), ef)
       else Raise ValueError;
     portfolio_performance := fun _ _ => Ok (0%Q, 0%Q, 0%Q);
     frontier_tickers := fst;
     frontier_bounds := snd |}.

(** What [run_ef_model] reports on [prices_AB] with bounds 0 and 1/10. *)
Definition report_max_sharpe : ef_report :=
  {| asset_weights := [("A", (1 # 10)%Q); ("B", 0%Q)];
     clean_wts := [("A", (1 # 10)%Q)];
     ret_tangent := 0%Q; std_tangent := 0%Q |}.


(** The join of [constituents_example] and [scores_example]. *)
Definition combined_example : DataFrame :=
  {| index := [0; 1]%Z;
     data :=
       [ ("Symbol", [VStr "ABT"; VStr "MMM"]);
         ("Security", [VStr "Abbott"; VStr "3M"]);
         ("CIK", [VNum (1800 # 1)%Q; VNum (66740 # 1)%Q]);
         ("esg_score", [VNum (85 # 1)%Q; VNum (72 # 1)%Q]) ] |}.

(** ** [display_filtered_universe] (project.py, lines 92-97) *)

(** What is put on the page. *)
Inductive ui_event : Type :=
| StHeader (text : string)
| StWrite (text : string)
| StDataframe (df : DataFrame)
| StMarkdown (html : string).

(** [str(n)] *)
Definition str (n : nat) : string := NilZero.string_of_uint (Nat.to_uint n).

Section Display.
(** [helpers.filedownload(df, filename, text)]: the download link. *)
Variable filedownload : DataFrame -> string -> string -> string.
Local Open Scope result_scope.

Definition display_filtered_universe (combined_df_filtered : DataFrame)
  : result (list ui_event) :=
  esg_positive_tickers <- pd.getattr combined_df_filtered "Symbol" ;;
  Ok [ StHeader "Universe";
       StWrite (String.append "Data Dimension: "
             (String.append (str (nrows combined_df_filtered))
             (String.append " rows and "
             (String.append (str (length (data combined_df_filtered)))
                 " columns."))));
       StDataframe combined_df_filtered;
       StMarkdown (filedownload combined_df_filtered "SP500.csv"
                   "Download ticker universe as CSV") ].

End Display.

(** ** The row test of the filter stage, stated on rows

    What lines 80 and 85 keep, read as one test on a row: its category is
    not excluded and its score is a number above the threshold. *)

Definition above_b (threshold : Z) (c : cell) : bool :=
  match c with
  | VNum q => negb (Qle_bool q (inject_Z threshold))
  | _ => false
  end.

Definition keep_row (excluded : list string) (threshold : Z)
    (category score : cell) : bool :=
  negb (pd.isin_cell excluded category) && above_b threshold score.

Definition row_mask (excluded : list string) (threshold : Z)
    (categories scores : Series) : list bool :=
  map (fun p => keep_row excluded threshold (fst p) (snd p))
    (combine categories scores).

(** The rows of [df] where [mask] holds, without the columns [clean_data]
    drops and without the columns left with no value, over a fresh index. *)
Definition selected_rows (mask : list bool) (df : DataFrame) : DataFrame :=
  pd.reset_index_drop
    (pd.dropna_columns_all
       {| index := select mask (index df);
          data :=
            map (fun c => (fst c, select mask (snd c)))
              (filter (fun c => negb (has_label admin_labels (fst c)))
                 (data df)) |}).

(** The frame with no row and no column. *)
Definition empty_frame : DataFrame := {| index := []; data := [] |}.

(** A universe where a row that the category filter keeps has a text
    score. *)
Definition universe_text_score : DataFrame :=
  {| index := [0; 1]%Z;
     data :=
       [ ("Symbol", [VStr "A"; VStr "B"]);
         ("SEC filings", [VStr "reports"; VStr "reports"]);
         ("GICS Sub-Industry", [VStr "X"; VStr "Y"]);
         ("CIK", [VNum (inject_Z 1800); VNum (inject_Z 1801)]);
         ("ticker_name", [VStr "Alpha"; VStr "Beta"]);
         ("esg_score", [VStr "n/a"; VNum (inject_Z 70)]) ] |}.

(** [m'] holds only where [m] holds. *)
Definition mask_le (m' m : list bool) : Prop :=
  Forall2 (fun b' b => b' = true -> b = true) m' m.

(** Data sources whose reference page cannot be fetched, or holds no
    table. *)
Definition unreachable_sources : DataSources :=
  {| read_html := fun _ => Raise (ExternalError "HTTP Error 503");
     read_excel := fun _ => Ok scores_example;
     yf_download := fun _ _ _ => Ok [] |}.

Definition no_table_sources : DataSources :=
  {| read_html := fun _ => Ok [];
     read_excel := fun _ => Ok scores_example;
     yf_download := fun _ _ _ => Ok [] |}.

(** The labels of the right table other than the join key. *)
Definition other_labels (on : string) (labels : list string)
  : list string :=
  filter (fun l => negb (String.eqb l on)) labels.

(** A column of text labels. *)
Definition all_text (s : Series) : Prop :=
  Forall (fun c => exists x, c = VStr x) s.

(** The sum of a weight vector. *)
Definition total_weight (w : weights) : Q :=
  fold_right Qplus 0%Q (map snd w).

(** What the pipeline relies on from the market-data provider: every
    column of its answer is one of the tickers it was asked for. *)
Definition ProviderContract (sources : DataSources) : Prop :=
  forall tickers period interval response field frame l,
    yf_download tickers period interval = Ok response ->
    In (field, frame) response ->
    In l (columns frame) ->
    In (VStr l) tickers.

(** A provider that answers with the columns of [prices_ABC] it is asked
    for. *)
Definition requested (tickers : Series) (df : DataFrame) : DataFrame :=
  {| index := index df;
     data := filter (fun c => existsb (cell_eqb (VStr (fst c))) tickers)
               (data df) |}.

Definition answering_sources : DataSources :=
  {| read_html := fun _ => Ok [constituents_example];
     read_excel := fun _ => Ok scores_example;
     yf_download := fun tickers _ _ =>
       Ok [("Adj Close", requested tickers prices_ABC)] |}.

Definition prices_A : DataFrame :=
  {| index := [20260102; 20260105]%Z;
     data := [ ("A", [VNum (101 # 1)%Q; VNum (205 # 2)%Q]) ] |}.

Definition report_A : ef_report :=
  {| asset_weights := [("A", (1 # 10)%Q)];
     clean_wts := [("A", (1 # 10)%Q)];
     ret_tangent := 0%Q; std_tangent := 0%Q |}.

(** Source tables with all the columns the filter stage reads. *)
Definition constituents_full : DataFrame :=
  {| index := [0; 1; 2]%Z;
     data :=
       [ ("Symbol", [VStr "MMM"; VStr "AOS"; VStr "ABT"]);
         ("Security", [VStr "3M"; VStr "A. O. Smith"; VStr "Abbott"]);
         ("SEC filings", [VStr "reports"; VStr "reports"; VStr "reports"]);
         ("GICS Sub-Industry",
          [VStr "Industrial Conglomerates"; VStr "Building Products";
           VStr "Health Care Equipment"]);
         ("CIK",
          [VNum (66740 # 1)%Q; VNum (91142 # 1)%Q; VNum (1800 # 1)%Q]) ] |}.

Definition scores_full : DataFrame :=
  {| index := [0; 1; 2]%Z;
     data :=
       [ ("Symbol", [VStr "ABT"; VStr "ZTS"; VStr "MMM"]);
         ("ticker_name", [VStr "Abbott"; VStr "Zoetis"; VStr "3M"]);
         ("esg_score",
          [VNum (85 # 1)%Q; VNum (60 # 1)%Q; VNum (72 # 1)%Q]) ] |}.

Definition full_sources : DataSources :=
  {| read_html := fun _ => Ok [constituents_full];
     read_excel := fun _ => Ok scores_full;
     yf_download := fun tickers _ _ =>
       Ok [("Adj Close", requested tickers prices_ABC)] |}.

Definition combined_full : DataFrame :=
  {| index := [0; 1]%Z;
     data :=
       [ ("Symbol", [VStr "ABT"; VStr "MMM"]);
         ("Security", [VStr "Abbott"; VStr "3M"]);
         ("SEC filings", [VStr "reports"; VStr "reports"]);
         ("GICS Sub-Industry",
          [VStr "Health Care Equipment"; VStr "Industrial Conglomerates"]);
         ("CIK", [VNum (1800 # 1)%Q; VNum (66740 # 1)%Q]);
         ("ticker_name", [VStr "Abbott"; VStr "3M"]);
         ("esg_score", [VNum (85 # 1)%Q; VNum (72 # 1)%Q]) ] |}.

Definition filtered_full : DataFrame :=
  {| index := [0]%Z;
     data :=
       [ ("Symbol", [VStr "ABT"]);
         ("Security", [VStr "Abbott"]);
         ("GICS Sub-Industry", [VStr "Health Care Equipment"]);
         ("esg_score", [VNum (85 # 1)%Q]) ] |}.

(** * Properties *)

(** ** Lists, masks and column lookup *)

Lemma nth_error_snoc {A} (h : list A) (x : A) :
  nth_error (h ++ [x]) (length h) = Some x.
Proof.
  rewrite nth_error_app2 by lia. now rewrite Nat.sub_diag.
Qed.

Lemma select_Forall {A} (P : A -> Prop) (mask : list bool) (xs : list A) :
  Forall P xs -> Forall P (select mask xs).
Proof.
  revert xs. induction mask as [|b mask IH]; intros [|x xs] H; simpl; auto.
  inversion H; subst. destruct b; auto.
Qed.

Lemma select_map_true {A} (f : A -> bool) (xs : list A) :
  Forall (fun x => f x = true) (select (map f xs) xs).
Proof.
  induction xs as [|x xs IH]; simpl; auto.
  destruct (f x) eqn:E; auto.
Qed.


Lemma select_length {A B} (mask : list bool) (xs : list A) (ys : list B) :
  length xs = length ys ->
  length (select mask xs) = length (select mask ys).
Proof.
  revert xs ys. induction mask as [|b mask IH]; intros [|x xs] [|y ys] L;
    simpl in *; try discriminate; auto.
  destruct b; simpl; auto.
Qed.

Lemma mapM_length {A B} (f : A -> result B) xs ys :
  mapM f xs = Ok ys -> length ys = length xs.
Proof.
  revert ys. induction xs as [|x xs IH]; simpl; intros ys H.
  - now inversion H.
  - destruct (f x); try discriminate. simpl in H.
    destruct (mapM f xs); try discriminate. simpl in H.
    inversion H; subst. simpl. f_equal. now apply IH.
Qed.

Lemma gt_cell_true threshold c :
  pd.gt_cell threshold c = Ok true -> above_threshold threshold c.
Proof.
  destruct c as [q|s|]; simpl; intros H; try discriminate.
  inversion H as [E]. exists q. split; auto.
  apply negb_true_iff in E. apply Qnot_le_lt. intros L.
  apply Qle_bool_iff in L. congruence.
Qed.


Lemma gt_select s threshold mask :
  pd.gt s threshold = Ok mask ->
  Forall (above_threshold threshold) (select mask s).
Proof.
  unfold pd.gt. revert mask.
  induction s as [|c s IH]; simpl; intros mask H.
  - inversion H. constructor.
  - destruct (pd.gt_cell threshold c) as [b|] eqn:E; try discriminate.
    simpl in H. destruct (mapM (pd.gt_cell threshold) s); try discriminate.
    simpl in H. inversion H; subst. simpl.
    destruct b; auto. constructor; auto. now apply gt_cell_true.
Qed.


Lemma getitem_In df label s :
  pd.getitem df label = Ok s -> In (label, s) (data df).
Proof.
  unfold pd.getitem.
  destruct (find _ (data df)) as [c|] eqn:F; try discriminate.
  intros H. inversion H; subst. apply find_some in F. destruct F as [I E].
  apply String.eqb_eq in E. destruct c; simpl in *; subst; auto.
Qed.

Lemma NoDup_fst_functional {A} (d : list (string * A)) l a b :
  NoDup (map fst d) -> In (l, a) d -> In (l, b) d -> a = b.
Proof.
  induction d as [|[l0 x] d IH]; simpl; intros N Ia Ib; [contradiction|].
  inversion N as [|? ? Hn N']; subst.
  destruct Ia as [Ea|Ia], Ib as [Eb|Ib].
  - congruence.
  - inversion Ea; subst. exfalso. apply Hn.
    change l with (fst (l, b)). now apply in_map.
  - inversion Eb; subst. exfalso. apply Hn.
    change l with (fst (l, a)). now apply in_map.
  - auto.
Qed.

Lemma find_map_snd {A} (f : A -> A) (p : string -> bool)
    (d : list (string * A)) :
  find (fun c => p (fst c)) (map (fun c => (fst c, f (snd c))) d) =
  option_map (fun c => (fst c, f (snd c))) (find (fun c => p (fst c)) d).
Proof.
  induction d as [|c d IH]; simpl; auto.
  destruct (p (fst c)); auto.
Qed.

Lemma find_filter_keep {A} (p q : A -> bool) (d : list A) c :
  find p d = Some c -> q c = true -> find p (filter q d) = Some c.
Proof.
  induction d as [|x d IH]; simpl; intros F Q; try discriminate.
  destruct (p x) eqn:P.
  - inversion F; subst. rewrite Q. simpl. now rewrite P.
  - destruct (q x); simpl; auto. now rewrite P; auto.
Qed.

Lemma find_filter_implied {A} (p q : A -> bool) (d : list A) :
  (forall x, p x = true -> q x = true) ->
  find p (filter q d) = find p d.
Proof.
  intros I. induction d as [|x d IH]; simpl; auto.
  destruct (p x) eqn:P.
  - rewrite (I _ P). simpl. now rewrite P.
  - destruct (q x); simpl; auto. now rewrite P.
Qed.

Lemma getitem_map_select df mask label :
  pd.getitem
    {| index := select mask (index df);
       data := map (fun c => (fst c, select mask (snd c))) (data df) |}
    label =
  rbind (pd.getitem df label) (fun s => Ok (select mask s)).
Proof.
  unfold pd.getitem. simpl.
  rewrite (find_map_snd (select mask) (fun l => String.eqb l label)).
  destruct (find _ (data df)); reflexivity.
Qed.

Lemma has_label_In labels l : has_label labels l = true <-> In l labels.
Proof.
  unfold has_label. rewrite existsb_exists. split.
  - intros (x & I & E). apply String.eqb_eq in E. now subst.
  - intros I. exists l. split; auto. apply String.eqb_refl.
Qed.

(** ** [clean_data]: the store-level run and the frame it computes *)

Lemma getitem_mask_inv df mask out :
  pd.getitem_mask df mask = Ok out ->
  length mask = nrows df /\
  out = {| index := select mask (index df);
           data := map (fun c => (fst c, select mask (snd c))) (data df) |}.
Proof.
  unfold pd.getitem_mask. destruct (Nat.eqb_spec (length mask) (nrows df));
    intros H; inversion H; auto.
Qed.

Lemma drop_inv df labels out :
  pd.drop df labels = Ok out ->
  (forall l, In l labels -> In l (columns df)) /\
  out = {| index := index df;
           data := filter (fun c => negb (has_label labels (fst c)))
                     (data df) |}.
Proof.
  unfold pd.drop.
  destruct (find _ labels) eqn:F; intros H; inversion H. split; auto.
  intros l I. apply has_label_In.
  pose proof (find_none _ _ F _ I) as N. simpl in N.
  now apply negb_false_iff in N.
Qed.

Lemma clean_data_run h r df S t :
  nth_error h r = Some df ->
  exists fresh,
    clean_data r S t h =
      (match clean_data_frame df S t with
       | Ok _ => Ok (length h + 4)
       | Raise e => Raise e
       end, h ++ fresh) /\
    match clean_data_frame df S t with
    | Ok out => nth_error (h ++ fresh) (length h + 4) = Some out
    | Raise _ => True
    end.
Proof.
  intros Hr.
  unfold clean_data, clean_data_frame, st.getitem, st.getitem_mask, st.drop,
    st.dropna_columns_all, st.reset_index_drop, bind, lift, deref, alloc, ret.
  rewrite Hr.
  destruct (pd.getitem df "GICS Sub-Industry") as [g|e]; simpl;
    [|exists []; rewrite app_nil_r; auto].
  rewrite Hr.
  destruct (pd.getitem_mask df _) as [f1|e]; simpl;
    [|exists []; rewrite app_nil_r; auto].
  rewrite nth_error_snoc.
  destruct (pd.drop f1 _) as [f2|e]; simpl; [|exists [f1]; auto].
  rewrite nth_error_snoc.
  destruct (pd.getitem f2 "esg_score") as [esg|e]; simpl;
    [|exists [f1; f2]; rewrite <- app_assoc; auto].
  destruct (pd.gt esg t) as [above|e]; simpl;
    [|exists [f1; f2]; rewrite <- app_assoc; auto].
  rewrite nth_error_snoc.
  destruct (pd.getitem_mask f2 above) as [sel|e]; simpl;
    [|exists [f1; f2]; rewrite <- app_assoc; auto].
  rewrite !nth_error_snoc.
  exists [f1; f2; sel; pd.dropna_columns_all sel;
          pd.reset_index_drop (pd.dropna_columns_all sel)].
  rewrite !length_app. simpl.
  replace (length h + 1 + 1 + 1 + 1) with (length h + 4) by lia.
  rewrite <- !app_assoc. simpl. split; auto.
  replace (length h + 4)
    with (length (h ++ [f1; f2; sel; pd.dropna_columns_all sel])).
  - change (h ++ [f1; f2; sel; pd.dropna_columns_all sel;
                  pd.reset_index_drop (pd.dropna_columns_all sel)])
      with (h ++ [f1; f2; sel; pd.dropna_columns_all sel] ++
                 [pd.reset_index_drop (pd.dropna_columns_all sel)]).
    rewrite app_assoc. apply nth_error_snoc.
  - rewrite length_app. simpl. lia.
Qed.

Lemma clean_data_on_frame df S t :
  clean_data_on df S t = clean_data_frame df S t.
Proof.
  unfold clean_data_on.
  destruct (@clean_data_run [df] 0 df S t eq_refl) as (fresh & E & R).
  rewrite E. unfold read_back.
  destruct (clean_data_frame df S t); auto.
  now rewrite R.
Qed.

(** The shape of a successful run, statement by statement. *)
Lemma clean_data_frame_inv df S t out :
  clean_data_frame df S t = Ok out ->
  exists g f2 esg above,
    pd.getitem df "GICS Sub-Industry" = Ok g /\
    length g = nrows df /\
    (forall l, In l admin_labels -> In l (columns df)) /\
    f2 = {| index := select (pd.invert (pd.isin g S)) (index df);
            data :=
              filter (fun c => negb (has_label admin_labels (fst c)))
                (map (fun c =>
                        (fst c, select (pd.invert (pd.isin g S)) (snd c)))
                   (data df)) |} /\
    pd.getitem f2 "esg_score" = Ok esg /\
    pd.gt esg t = Ok above /\
    length above = nrows f2 /\
    out = pd.reset_index_drop
            (pd.dropna_columns_all
               {| index := select above (index f2);
                  data := map (fun c => (fst c, select above (snd c)))
                            (data f2) |}).
Proof.
  unfold clean_data_frame. intros H.
  destruct (pd.getitem df "GICS Sub-Industry") as [g|] eqn:G;
    try discriminate. simpl in H.
  destruct (pd.getitem_mask df _) as [f1|] eqn:M1; try discriminate.
  simpl in H.
  destruct (pd.drop f1 _) as [f2|] eqn:D; try discriminate. simpl in H.
  destruct (pd.getitem f2 "esg_score") as [esg|] eqn:E; try discriminate.
  simpl in H.
  destruct (pd.gt esg t) as [above|] eqn:A; try discriminate. simpl in H.
  destruct (pd.getitem_mask f2 above) as [sel|] eqn:M2; try discriminate.
  simpl in H. inversion H; subst out; clear H.
  apply getitem_mask_inv in M1. destruct M1 as [L1 ->].
  apply drop_inv in D. destruct D as [I ->].
  apply getitem_mask_inv in M2. destruct M2 as [L2 ->].
  exists g, {| index := select (pd.invert (pd.isin g S)) (index df);
               data :=
                 filter (fun c => negb (has_label admin_labels (fst c)))
                   (map (fun c =>
                           (fst c, select (pd.invert (pd.isin g S)) (snd c)))
                      (data df)) |}, esg, above.
  repeat split; auto.
  - unfold pd.invert, pd.isin in L1. now rewrite !length_map in L1.
  - intros l Hl. specialize (I l Hl). unfold columns in *. simpl in I.
    now rewrite map_map in I.
Qed.

Lemma invert_isin_select g S :
  Forall (fun c => pd.isin_cell S c = false)
    (select (pd.invert (pd.isin g S)) g).
Proof.
  unfold pd.invert, pd.isin. rewrite map_map.
  eapply Forall_impl;
    [|apply (select_map_true (fun c => negb (pd.isin_cell S c)))].
  intros c H. now apply negb_true_iff.
Qed.

Lemma Forall_above_notna t s :
  Forall (above_threshold t) s -> s <> [] -> existsb notna s = true.
Proof.
  intros F N. destruct s as [|c s]; [congruence|].
  inversion F as [|? ? (q & -> & _) _]. reflexivity.
Qed.

(** On a successful run with at least [k+1] rows, the score column is in
    the output and is the selected part of the input's score column. *)
Lemma clean_data_score_column df S t out k :
  clean_data_frame df S t = Ok out ->
  k < nrows out ->
  exists s, pd.getitem out "esg_score" = Ok s /\
            length s = nrows out /\
            Forall (above_threshold t) s.
Proof.
  intros H K.
  destruct (clean_data_frame_inv _ _ _ H)
    as (g & f2 & esg & above & G & Lg & I & F2 & E & A & La & ->).
  exists (select above esg).
  pose proof (gt_select _ _ A) as FA.
  pose proof (mapM_length _ _ A) as Le.
  assert (Len : length (select above esg) =
                length (select above (index f2))).
  { apply select_length. unfold nrows in La. congruence. }
  unfold pd.reset_index_drop, pd.dropna_columns_all, nrows in K |- *.
  simpl in K |- *. rewrite length_map, length_seq in K |- *.
  repeat split; auto.
  unfold pd.getitem in E |- *. simpl.
  destruct (find _ (data f2)) as [c|] eqn:Fd; try discriminate.
  inversion E; subst esg; clear E.
  erewrite find_filter_keep with (c := (fst c, select above (snd c))).
  - reflexivity.
  - pose proof (find_map_snd (select above)
                  (fun l => String.eqb l "esg_score") (data f2)) as Fm.
    simpl in Fm. rewrite Fm, Fd. reflexivity.
  - simpl. apply Forall_above_notna with (t := t); auto.
    intros N. rewrite N in Len. simpl in Len. lia.
Qed.

(** Every column of the output named like the input's category column is
    the selected part of it, and holds no excluded category. *)
Lemma clean_data_category_column df S t out s :
  clean_data_frame df S t = Ok out ->
  NoDup (columns df) ->
  pd.getitem out "GICS Sub-Industry" = Ok s ->
  Forall (fun c => pd.isin_cell S c = false) s.
Proof.
  intros H N Gs.
  destruct (clean_data_frame_inv _ _ _ H)
    as (g & f2 & esg & above & G & Lg & I & F2 & E & A & La & ->).
  apply getitem_In in Gs. simpl in Gs.
  apply filter_In in Gs. destruct Gs as [Gs _].
  apply in_map_iff in Gs. destruct Gs as (c2 & E2 & I2).
  inversion E2 as [[El Es]]. subst f2. simpl in I2.
  apply filter_In in I2. destruct I2 as [I2 _].
  apply in_map_iff in I2. destruct I2 as (c0 & E0 & I0).
  subst c2. simpl in *.
  apply getitem_In in G.
  assert (snd c0 = g) as ->.
  { apply (@NoDup_fst_functional _ (data df) "GICS Sub-Industry"); auto.
    rewrite <- El. destruct c0; auto. }
  apply select_Forall. apply invert_isin_select.
Qed.

Lemma drop_ok df labels :
  (forall l, In l labels -> In l (columns df)) ->
  pd.drop df labels =
  Ok {| index := index df;
        data := filter (fun c => negb (has_label labels (fst c)))
                  (data df) |}.
Proof.
  intros I. unfold pd.drop.
  destruct (find _ labels) as [l|] eqn:F; auto.
  apply find_some in F. destruct F as [Il N].
  apply negb_true_iff in N. apply I, has_label_In in Il. congruence.
Qed.

Lemma getitem_not_dropped (d : list (string * Series)) idx idx' label
    labels :
  has_label labels label = false ->
  pd.getitem
    {| index := idx;
       data := filter (fun c => negb (has_label labels (fst c))) d |} label =
  pd.getitem {| index := idx'; data := d |} label.
Proof.
  intros N. unfold pd.getitem. simpl.
  rewrite find_filter_implied; auto.
  intros x E. apply String.eqb_eq in E. now rewrite E, N.
Qed.

(** When the two columns read by [clean_data] are there, with the three
    columns it drops, and the scores compare, [clean_data] succeeds with
    the selected rows of the remaining columns. *)
Lemma clean_data_frame_success df S t g e above :
  pd.getitem df "GICS Sub-Industry" = Ok g ->
  length g = nrows df ->
  (forall l, In l admin_labels -> In l (columns df)) ->
  pd.getitem df "esg_score" = Ok e ->
  length e = nrows df ->
  pd.gt (select (pd.invert (pd.isin g S)) e) t = Ok above ->
  clean_data_frame df S t =
  Ok (pd.reset_index_drop
        (pd.dropna_columns_all
           {| index := select above
                         (select (pd.invert (pd.isin g S)) (index df));
              data :=
                map (fun c => (fst c, select above (snd c)))
                  (filter (fun c => negb (has_label admin_labels (fst c)))
                     (map (fun c =>
                             (fst c,
                              select (pd.invert (pd.isin g S)) (snd c)))
                        (data df))) |})).
Proof.
  intros G Lg I E Le A. unfold clean_data_frame. rewrite G. cbn [rbind].
  unfold pd.getitem_mask at 1.
  replace (length (pd.invert (pd.isin g S)) =? nrows df)%nat with true.
  2:{ symmetry. apply Nat.eqb_eq. unfold pd.invert, pd.isin.
      now rewrite !length_map. }
  cbn [rbind]. rewrite drop_ok.
  2:{ intros l Hl. unfold columns. cbn [data]. rewrite map_map. simpl.
      now apply I. }
  cbn [rbind index data].
  rewrite getitem_not_dropped
    with (idx' := select (pd.invert (pd.isin g S)) (index df))
    by reflexivity.
  rewrite getitem_map_select, E. cbn [rbind]. rewrite A. cbn [rbind].
  unfold pd.getitem_mask.
  replace (length above =? _)%nat with true; auto.
  symmetry. apply Nat.eqb_eq. rewrite (mapM_length _ _ A).
  unfold nrows. cbn [index]. apply select_length.
  unfold nrows in Le. congruence.
Qed.

(** ** The filter stage: claims *)

(** C2. Whatever the universe and the threshold [t], every row of the
    table returned by [clean_data] has a numeric ESG score strictly above
    [t]. *)
Theorem clean_data_scores_above_threshold df S t out k :
  clean_data_on df S t = Ok out ->
  k < nrows out ->
  exists q, cell_at out "esg_score" k = Some (VNum q) /\
            (inject_Z t < q)%Q.
Proof.
  rewrite clean_data_on_frame. intros H K.
  destruct (clean_data_score_column _ _ _ H K) as (s & Gs & Ls & Fs).
  unfold cell_at. rewrite Gs.
  destruct (nth_error s k) as [c|] eqn:Nk.
  - apply nth_error_In in Nk. rewrite Forall_forall in Fs.
    destruct (Fs _ Nk) as (q & -> & Lt). now exists q.
  - apply nth_error_None in Nk. unfold nrows in *. exfalso. lia.
Qed.

Example clean_data_universe_AB :
  clean_data_on universe_AB ["Y"] 80 = Ok filtered_A.
Proof. reflexivity. Qed.

Lemma clean_data_scores_above_threshold_witness :
  clean_data_on universe_AB ["Y"] 80 = Ok filtered_A /\
  0 < nrows filtered_A /\
  exists q, cell_at filtered_A "esg_score" 0 = Some (VNum q) /\
            (inject_Z 80 < q)%Q.
Proof.
  split; [reflexivity|]. split; [unfold nrows; simpl; lia|].
  apply (@clean_data_scores_above_threshold universe_AB ["Y"] 80%Z
           filtered_A 0).
  - reflexivity.
  - unfold nrows; simpl; lia.
Defined.

Lemma output_getitem (d : list (string * Series)) idx idx' m1 above l s :
  has_label admin_labels l = false ->
  pd.getitem {| index := idx; data := d |} l = Ok s ->
  existsb notna (select above (select m1 s)) = true ->
  pd.getitem
    (pd.reset_index_drop
       (pd.dropna_columns_all
          {| index := idx';
             data :=
               map (fun c => (fst c, select above (snd c)))
                 (filter (fun c => negb (has_label admin_labels (fst c)))
                    (map (fun c => (fst c, select m1 (snd c))) d)) |})) l =
  Ok (select above (select m1 s)).
Proof.
  intros N G E. unfold pd.getitem in *. cbn [data] in G.
  destruct (find _ d) as [c|] eqn:F; try discriminate.
  inversion G; subst s; clear G.
  cbn [pd.reset_index_drop pd.dropna_columns_all data].
  rewrite find_filter_keep
    with (c := (fst c, select above (select m1 (snd c)))); auto.
  pose proof (fun d' => find_map_snd (@select cell above)
                          (fun x => String.eqb x l) d') as Fa.
  cbn beta in Fa. rewrite Fa. clear Fa.
  rewrite find_filter_implied.
  2:{ intros x Ex. apply String.eqb_eq in Ex. now rewrite Ex, N. }
  pose proof (find_map_snd (@select cell m1)
                (fun x => String.eqb x l) d) as Fm.
  cbn beta in Fm. rewrite Fm, F. reflexivity.
Qed.

Lemma well_formed_column_length df l s :
  well_formed df -> pd.getitem df l = Ok s -> length s = nrows df.
Proof.
  intros [_ W] G. apply getitem_In in G. rewrite Forall_forall in W.
  apply (W _ G).
Qed.

Ltac solve_well_formed :=
  split;
  [ repeat (constructor; [simpl; intuition discriminate|]); constructor
  | repeat constructor ].

Lemma universe_AB_well_formed : well_formed universe_AB.
Proof. solve_well_formed. Qed.

(** C3. Whatever the universe and the excluded set [S], no row of the
    table returned by [clean_data] carries a category of [S].  In
    particular, a universe made of A (score 90, category X) and B (score
    70, category Y), filtered with [S = {Y}] and a minimum score of 80,
    comes out as the single row A. *)
Theorem clean_data_excludes_categories :
  (forall df S t out k s,
      well_formed df ->
      clean_data_on df S t = Ok out ->
      cell_at out "GICS Sub-Industry" k = Some (VStr s) ->
      ~ In s S) /\
  (forall df,
      well_formed df ->
      pd.getitem df "Symbol" = Ok [VStr "A"; VStr "B"] ->
      pd.getitem df "GICS Sub-Industry" = Ok [VStr "X"; VStr "Y"] ->
      pd.getitem df "esg_score" =
        Ok [VNum (inject_Z 90); VNum (inject_Z 70)] ->
      (forall l, In l admin_labels -> In l (columns df)) ->
      exists out,
        clean_data_on df ["Y"] 80 = Ok out /\
        nrows out = 1 /\
        pd.getitem out "Symbol" = Ok [VStr "A"]).
Proof.
  split.
  - intros df S t out k s W H C. rewrite clean_data_on_frame in H.
    unfold cell_at in C.
    destruct (pd.getitem out "GICS Sub-Industry") as [col|] eqn:G;
      try discriminate.
    pose proof (@clean_data_category_column df S t out col H (proj1 W) G) as F.
    apply nth_error_In in C. rewrite Forall_forall in F.
    specialize (F _ C). simpl in F. intros I.
    apply has_label_In in I. congruence.
  - intros df W Sy G E I.
    pose proof (well_formed_column_length _ W G) as Lg.
    pose proof (well_formed_column_length _ W E) as Le.
    eexists. rewrite clean_data_on_frame.
    split; [|split].
    + apply clean_data_frame_success
        with (g := [VStr "X"; VStr "Y"])
             (e := [VNum (inject_Z 90); VNum (inject_Z 70)])
             (above := [true]); auto.
    + unfold nrows in *. cbn [pd.reset_index_drop nrows pd.dropna_columns_all
                               index].
      rewrite length_map, length_seq.
      destruct (index df) as [|a [|b [|c ?]]]; simpl in Lg; try discriminate.
      reflexivity.
    + change [VStr "A"]
        with (select [true]
                (select (pd.invert (pd.isin [VStr "X"; VStr "Y"] ["Y"]))
                   [VStr "A"; VStr "B"])).
      apply output_getitem with (idx := index df); auto.
Qed.

Lemma clean_data_excludes_categories_witness :
  ~ In "X" ["Y"] /\
  exists out,
    clean_data_on universe_AB ["Y"] 80 = Ok out /\
    nrows out = 1 /\
    pd.getitem out "Symbol" = Ok [VStr "A"].
Proof.
  split.
  - apply (proj1 clean_data_excludes_categories universe_AB ["Y"] 80%Z
             filtered_A 0 "X" universe_AB_well_formed);
      reflexivity.
  - apply (proj2 clean_data_excludes_categories universe_AB
             universe_AB_well_formed); try reflexivity.
    intros l Hl. simpl in Hl. simpl.
    intuition.
Defined.



(** No column of the output carries one of the three dropped labels. *)
Lemma clean_data_output_labels df S t out l :
  clean_data_frame df S t = Ok out ->
  In l (columns out) -> has_label admin_labels l = false.
Proof.
  intros H I.
  destruct (clean_data_frame_inv _ _ _ H)
    as (g & f2 & esg & above & _ & _ & _ & -> & _ & _ & _ & ->).
  unfold columns in I. simpl in I.
  apply in_map_iff in I. destruct I as (c & <- & I).
  apply filter_In in I. destruct I as [I _].
  apply in_map_iff in I. destruct I as (c2 & <- & I). simpl.
  apply filter_In in I. destruct I as [_ N].
  now apply negb_true_iff in N.
Qed.

Lemma clean_data_frame_needs_labels df S t out l :
  clean_data_frame df S t = Ok out ->
  In l admin_labels -> In l (columns df).
Proof.
  intros H I.
  destruct (clean_data_frame_inv _ _ _ H)
    as (g & f2 & esg & above & _ & _ & Hl & _).
  now apply Hl.
Qed.

Lemma getitem_of_label df l :
  In l (columns df) -> exists s, pd.getitem df l = Ok s.
Proof.
  unfold columns, pd.getitem. intros I.
  destruct (find _ (data df)) as [c|] eqn:F; [now exists (snd c)|].
  apply in_map_iff in I. destruct I as (c & <- & I).
  pose proof (find_none _ _ F _ I) as N. simpl in N.
  now rewrite String.eqb_refl in N.
Qed.





Lemma clean_data_output_notna df S t out l s :
  clean_data_frame df S t = Ok out ->
  In (l, s) (data out) -> existsb notna s = true.
Proof.
  intros H I.
  destruct (clean_data_frame_inv _ _ _ H)
    as (g & f2 & esg & above & _ & _ & _ & _ & _ & _ & _ & ->).
  simpl in I. apply filter_In in I. now destruct I as [_ N].
Qed.






(** C10. [clean_data] raises, and returns no table, whenever one of the
    columns 'SEC filings', 'CIK', 'ticker_name' is missing from its input;
    a run that succeeds had all three. *)
Theorem clean_data_requires_admin_columns df S t :
  (forall l,
      In l ["SEC filings"; "CIK"; "ticker_name"] ->
      ~ In l (columns df) ->
      exists e, clean_data_on df S t = Raise e) /\
  (forall out,
      clean_data_on df S t = Ok out ->
      In "SEC filings" (columns df) /\
      In "CIK" (columns df) /\
      In "ticker_name" (columns df)).
Proof.
  rewrite clean_data_on_frame. split.
  - intros l I N.
    destruct (clean_data_frame df S t) as [out|e] eqn:H; [|now exists e].
    exfalso. apply N.
    now apply (@clean_data_frame_needs_labels df S t out l H).
  - intros out H.
    repeat split;
      apply (@clean_data_frame_needs_labels df S t out _ H); simpl; auto.
Qed.

Lemma clean_data_requires_admin_columns_witness :
  (exists e, clean_data_on universe_no_CIK ["Y"] 80 = Raise e) /\
  In "SEC filings" (columns universe_AB) /\
  In "CIK" (columns universe_AB) /\
  In "ticker_name" (columns universe_AB).
Proof.
  split.
  - apply (proj1 (clean_data_requires_admin_columns universe_no_CIK
                    ["Y"] 80) "CIK").
    + simpl. auto.
    + simpl. intuition discriminate.
  - apply (proj2 (clean_data_requires_admin_columns universe_AB
                    ["Y"] 80) filtered_A).
    reflexivity.
Defined.

(** C9. [clean_data] is a function of its three inputs and has no side
    effect: from any two stores holding the same universe table, with the
    same excluded set and minimum score, the two runs end with equal
    tables (or the same exception); a run only adds new objects to the
    store, so the input table, like every object that existed before, is
    unchanged. *)
Theorem clean_data_pure h1 h2 r1 r2 df S t :
  nth_error h1 r1 = Some df ->
  nth_error h2 r2 = Some df ->
  read_back (clean_data r1 S t h1) = read_back (clean_data r2 S t h2) /\
  (exists fresh, snd (clean_data r1 S t h1) = h1 ++ fresh) /\
  nth_error (snd (clean_data r1 S t h1)) r1 = Some df.
Proof.
  intros H1 H2.
  destruct (@clean_data_run h1 r1 df S t H1) as (f1 & E1 & R1).
  destruct (@clean_data_run h2 r2 df S t H2) as (f2 & E2 & R2).
  rewrite E1, E2. unfold read_back. cbn [snd].
  repeat split.
  - destruct (clean_data_frame df S t); auto. now rewrite R1, R2.
  - now exists f1.
  - rewrite nth_error_app1; auto. apply nth_error_Some. congruence.
Qed.

Lemma clean_data_pure_witness :
  read_back (clean_data 0 ["Y"] 80 [universe_AB]) =
  read_back (clean_data 1 ["Y"] 80 [filtered_A; universe_AB]) /\
  (exists fresh,
      snd (clean_data 0 ["Y"] 80 [universe_AB]) = [universe_AB] ++ fresh) /\
  nth_error (snd (clean_data 0 ["Y"] 80 [universe_AB])) 0 =
    Some universe_AB.
Proof.
  apply (@clean_data_pure [universe_AB] [filtered_A; universe_AB] 0 1
           universe_AB ["Y"] 80%Z); reflexivity.
Defined.

(** ** The price loader *)

Lemma existsb_notna_iff (s : Series) :
  existsb notna s = true <-> exists c, In c s /\ c <> VNaN.
Proof.
  rewrite existsb_exists. split; intros (c & I & H); exists c; split; auto.
  - intros ->. discriminate.
  - destruct c; auto.
Qed.

Lemma all_missing_dropped (s : Series) :
  Forall (fun c => c = VNaN) s -> existsb notna s = false.
Proof. induction 1 as [|c s -> _ IH]; simpl; auto. Qed.

(** C4. [load_price_data] returns the adjusted-close table of the provider
    without the ticker columns that are entirely missing, and with every
    column that has at least one value, in their order; a table with
    columns A, B, C where only C is entirely missing comes out with the
    columns A and B. *)
Theorem load_price_data_drops_missing (sources : DataSources)
    universe tickers response adj_close :
  pd.getattr universe "Symbol" = Ok tickers ->
  yf_download tickers "ytd" "1D" = Ok response ->
  getitem_field response "Adj Close" = Ok adj_close ->
  exists out,
    load_price_data universe = Ok out /\
    index out = index adj_close /\
    (forall l s,
        In (l, s) (data out) <->
        In (l, s) (data adj_close) /\ exists c, In c s /\ c <> VNaN) /\
    (forall a b c,
        data adj_close = [("A", a); ("B", b); ("C", c)] ->
        (exists x, In x a /\ x <> VNaN) ->
        (exists x, In x b /\ x <> VNaN) ->
        Forall (fun x => x = VNaN) c ->
        data out = [("A", a); ("B", b)]).
Proof.
  intros T R A. unfold load_price_data. rewrite T. cbn [rbind].
  rewrite R. cbn [rbind]. rewrite A. cbn [rbind].
  eexists. split; [reflexivity|]. split; [reflexivity|]. split.
  - intros l s. cbn [pd.dropna_columns_all data]. rewrite filter_In.
    cbn [snd]. now rewrite existsb_notna_iff.
  - intros a b c E Ha Hb Hc. cbn [pd.dropna_columns_all data]. rewrite E.
    apply existsb_notna_iff in Ha, Hb. apply all_missing_dropped in Hc.
    simpl. now rewrite Ha, Hb, Hc.
Qed.

Lemma load_price_data_drops_missing_witness :
  exists out,
    @load_price_data (example_sources scores_example) filtered_A = Ok out /\
    index out = index prices_ABC /\
    (forall l s,
        In (l, s) (data out) <->
        In (l, s) (data prices_ABC) /\ exists c, In c s /\ c <> VNaN) /\
    (forall a b c,
        data prices_ABC = [("A", a); ("B", b); ("C", c)] ->
        (exists x, In x a /\ x <> VNaN) ->
        (exists x, In x b /\ x <> VNaN) ->
        Forall (fun x => x = VNaN) c ->
        data out = [("A", a); ("B", b)]).
Proof.
  apply (@load_price_data_drops_missing (example_sources scores_example)
           filtered_A [VStr "A"]
           [("Adj Close", prices_ABC); ("Close", prices_ABC)] prices_ABC);
    reflexivity.
Defined.

Example load_price_data_ABC :
  @load_price_data (example_sources scores_example) filtered_A =
  Ok prices_AB.
Proof. reflexivity. Qed.

(** ** The optimiser adapter *)

(** The calls a successful [run_ef_model] has made, in order. *)
Lemma run_ef_model_inv (lib : PyPortfolioOpt) prices lo hi obj rf report :
  run_ef_model prices (lo, hi) obj rf = Ok report ->
  exists mu Sigma ef0 ef w ef',
    mean_historical_return prices = Ok mu /\
    sample_cov prices = Ok Sigma /\
    CLA mu Sigma (lo, hi) = Ok ef0 /\
    plot_efficient_frontier ef0 = Ok ef /\
    ((obj = "Max Sharpe" /\ max_sharpe ef = Ok (w, ef')) \/
     (obj = "Min Vol" /\ obj <> "Max Sharpe" /\
      min_volatility ef = Ok (w, ef'))) /\
    asset_weights report = w /\
    clean_wts report = filter nonzero w.
Proof.
  unfold run_ef_model, solve. intros H.
  destruct (mean_historical_return prices) as [mu|] eqn:Hm;
    try discriminate. cbn [rbind] in H.
  destruct (sample_cov prices) as [Sigma|] eqn:Hs; try discriminate.
  cbn [rbind] in H.
  destruct (CLA mu Sigma (lo, hi)) as [ef0|] eqn:Hc; try discriminate.
  cbn [rbind] in H.
  destruct (plot_efficient_frontier ef0) as [ef|] eqn:Hp; try discriminate.
  cbn [rbind] in H.
  exists mu, Sigma, ef0, ef.
  destruct (String.eqb_spec obj "Max Sharpe") as [E1|N1].
  - destruct (max_sharpe ef) as [[w ef']|] eqn:Hw; try discriminate.
    cbn [rbind fst snd] in H.
    destruct (portfolio_performance ef' rf); try discriminate.
    cbn [rbind] in H. inversion H; subst report; clear H.
    exists w, ef'. cbn [asset_weights clean_wts]. repeat split; auto.
  - destruct (String.eqb_spec obj "Min Vol") as [E2|N2].
    + destruct (min_volatility ef) as [[w ef']|] eqn:Hw; try discriminate.
      cbn [rbind fst snd] in H.
      destruct (portfolio_performance ef' rf); try discriminate.
      cbn [rbind] in H. inversion H; subst report; clear H.
      exists w, ef'. cbn [asset_weights clean_wts]. repeat split; auto.
    + cbn [rbind fst snd] in H.
      destruct (portfolio_performance ef rf); discriminate.
Qed.

(** Any other objective leaves [asset_weights] unbound: the run raises. *)
Lemma run_ef_model_unknown_objective (lib : PyPortfolioOpt) prices lo hi
    obj rf report :
  obj <> "Max Sharpe" -> obj <> "Min Vol" ->
  run_ef_model prices (lo, hi) obj rf <> Ok report.
Proof.
  intros N1 N2 H.
  destruct (run_ef_model_inv _ _ _ _ _ _ H)
    as (mu & Sigma & ef0 & ef & w & ef' & _ & _ & _ & _ & D & _).
  destruct D as [[E _]|[E _]]; contradiction.
Qed.

Lemma nonzero_iff kv : nonzero kv = true <-> ~ (snd kv == 0)%Q.
Proof.
  unfold nonzero. rewrite negb_true_iff. split.
  - intros H E. apply Qeq_bool_iff in E. congruence.
  - intros H. destruct (Qeq_bool (snd kv) 0) eqn:E; auto.
    apply Qeq_bool_iff in E. contradiction.
Qed.



Lemma map_fst_const {A B} (f : A -> B) (l : list A) :
  map fst (map (fun x => (x, f x)) l) = l.
Proof. rewrite map_map. simpl. apply map_id. Qed.

Lemma bound_solver_contract : SolverContract bound_solver 0.
Proof.
  constructor; simpl.
  - intros prices mu H. inversion H. apply map_fst_const.
  - intros mu Sigma b ef H. now inversion H.
  - intros mu Sigma b ef H. now inversion H.
  - intros ef ef' H. now inversion H.
  - intros [tk [lo hi]] w ef'. simpl.
    destruct (Qle_bool lo hi) eqn:L; intros H; inversion H; subst.
    apply Qle_bool_iff in L. destruct tk as [|l ls]; simpl; auto.
    split; [f_equal; apply map_fst_const|].
    constructor; [simpl; split; lra|].
    apply Forall_forall. intros kv I. apply in_map_iff in I.
    destruct I as (l' & <- & _). simpl. split; lra.
  - intros [tk [lo hi]] w ef'. simpl.
    destruct (Qle_bool lo hi) eqn:L; intros H; inversion H; subst.
    apply Qle_bool_iff in L. split; [apply map_fst_const|].
    apply Forall_forall. intros kv I. apply in_map_iff in I.
    destruct I as (l & <- & _). simpl. split; lra.
Qed.

(** What the contract says about the vector a successful run returns. *)
Lemma run_ef_model_solution (lib : PyPortfolioOpt) tol prices lo hi obj rf
    report :
  SolverContract lib tol ->
  run_ef_model prices (lo, hi) obj rf = Ok report ->
  map fst (asset_weights report) = columns prices /\
  Forall (fun kv => (lo - tol <= snd kv)%Q /\ (snd kv <= hi + tol)%Q)
    (asset_weights report).
Proof.
  intros C H.
  destruct (run_ef_model_inv _ _ _ _ _ _ H)
    as (mu & Sigma & ef0 & ef & w & ef' & Hm & Hs & Hc & Hp & D & Ew & _).
  pose proof (mu_index C _ Hm) as Ei.
  pose proof (CLA_tickers C _ _ _ Hc) as Et.
  pose proof (CLA_bounds C _ _ _ Hc) as Eb.
  destruct (plot_keeps C _ Hp) as [Pt Pb].
  assert (W : map fst w = frontier_tickers ef /\
              Forall (fun kv =>
                        (fst (frontier_bounds ef) - tol <= snd kv)%Q /\
                        (snd kv <= snd (frontier_bounds ef) + tol)%Q) w).
  { destruct D as [[_ D]|(_ & _ & D)].
    - apply (max_sharpe_weights C _ D).
    - apply (min_volatility_weights C _ D). }
  destruct W as [Wk Wb]. rewrite Ew. split.
  - congruence.
  - rewrite Pb, Eb in Wb. exact Wb.
Qed.

(** C5. The dictionary [run_ef_model] plots and writes holds exactly the
    entries of the solver's weight vector whose value is not zero, in the
    solver's order; with a solver keyed by the columns of the price table,
    each of its tickers is a column of the price table. *)
Theorem run_ef_model_surfaced_weights (lib : PyPortfolioOpt) tol
    prices min_wt max_wt objective_fn risk_free_rate report :
  SolverContract lib tol ->
  run_ef_model prices (min_wt, max_wt) objective_fn risk_free_rate =
    Ok report ->
  clean_wts report = filter nonzero (asset_weights report) /\
  (forall k v,
      In (k, v) (clean_wts report) <->
      In (k, v) (asset_weights report) /\ ~ (v == 0)%Q) /\
  (forall k v, In (k, v) (clean_wts report) -> In k (columns prices)).
Proof.
  intros C H.
  destruct (@run_ef_model_solution lib tol prices min_wt max_wt objective_fn
              risk_free_rate report C H) as [Ek _].
  destruct (run_ef_model_inv _ _ _ _ _ _ H)
    as (_ & _ & _ & _ & w & _ & _ & _ & _ & _ & _ & Ew & Ec).
  rewrite Ec, Ew in *. split; [reflexivity|]. split.
  - intros k v. rewrite filter_In, nonzero_iff. reflexivity.
  - intros k v I. apply filter_In in I. destruct I as [I _].
    rewrite <- Ek. change k with (fst (k, v)). now apply in_map.
Qed.

Lemma run_ef_model_surfaced_weights_witness :
  clean_wts report_max_sharpe =
    filter nonzero (asset_weights report_max_sharpe) /\
  (forall k v,
      In (k, v) (clean_wts report_max_sharpe) <->
      In (k, v) (asset_weights report_max_sharpe) /\ ~ (v == 0)%Q) /\
  (forall k v,
      In (k, v) (clean_wts report_max_sharpe) -> In k (columns prices_AB)).
Proof.
  apply (@run_ef_model_surfaced_weights bound_solver 0 prices_AB
           0%Q (1 # 10)%Q "Max Sharpe" (65 # 1000)%Q report_max_sharpe).
  - exact bound_solver_contract.
  - reflexivity.
Defined.

(** C6. With a solver that honours the bounds it is built with up to a
    tolerance [tol], every weight of the vector [run_ef_model] returns
    lies between [min_wt - tol] and [max_wt + tol]: the adapter hands the
    user's bounds to the solver unchanged and in this order. *)
Theorem run_ef_model_respects_bounds (lib : PyPortfolioOpt) tol
    prices min_wt max_wt objective_fn risk_free_rate report :
  SolverContract lib tol ->
  run_ef_model prices (min_wt, max_wt) objective_fn risk_free_rate =
    Ok report ->
  Forall (fun kv => (min_wt - tol <= snd kv)%Q /\
                    (snd kv <= max_wt + tol)%Q)
    (asset_weights report).
Proof.
  intros C H.
  apply (@run_ef_model_solution lib tol prices min_wt max_wt objective_fn
           risk_free_rate report C H).
Qed.

Lemma run_ef_model_respects_bounds_witness :
  Forall (fun kv => (0 - 0 <= snd kv)%Q /\ (snd kv <= (1 # 10)%Q + 0)%Q)
    (asset_weights report_max_sharpe).
Proof.
  apply (@run_ef_model_respects_bounds bound_solver 0 prices_AB
           0%Q (1 # 10)%Q "Max Sharpe" (65 # 1000)%Q report_max_sharpe).
  - exact bound_solver_contract.
  - reflexivity.
Defined.

(** ** Sorting and joining *)

Lemma cell_leb_total a b : cell_leb a b = false -> cell_leb b a = true.
Proof.
  destruct a as [p|s|], b as [q|u|]; simpl; auto; try discriminate.
  - intros H. apply Qle_bool_iff. apply Qlt_le_weak. apply Qnot_le_lt.
    intros L. apply Qle_bool_iff in L. congruence.
  - intros H. destruct (String.leb_total s u) as [L|L]; congruence.
Qed.

Lemma insert_by_perm x l : Permutation (x :: l) (insert_by x l).
Proof.
  induction l as [|y l IH]; simpl; auto.
  destruct (cell_leb (fst x) (fst y)); auto.
  eapply perm_trans; [apply perm_swap|]. now constructor.
Qed.

Lemma sort_keyed_perm l : Permutation l (sort_keyed l).
Proof.
  induction l as [|x l IH]; simpl; auto.
  eapply perm_trans; [|apply insert_by_perm]. now constructor.
Qed.

Lemma insert_by_sorted x l :
  Sorted keyed_le l -> Sorted keyed_le (insert_by x l).
Proof.
  induction 1 as [|y l S IH Hd]; simpl.
  - repeat constructor.
  - destruct (cell_leb (fst x) (fst y)) eqn:E.
    + constructor; [now constructor|]. now constructor.
    + constructor; auto.
      destruct l as [|z l]; simpl.
      * constructor. now apply cell_leb_total.
      * destruct (cell_leb (fst x) (fst z)).
        -- constructor. now apply cell_leb_total.
        -- constructor. now inversion Hd.
Qed.

Lemma sort_keyed_sorted l : Sorted keyed_le (sort_keyed l).
Proof.
  induction l as [|x l IH]; simpl; [constructor|].
  now apply insert_by_sorted.
Qed.

Lemma Sorted_map_fst (l : list (cell * nat)) :
  Sorted keyed_le l -> Sorted cell_le (map fst l).
Proof.
  induction 1 as [|y l S IH Hd]; simpl; constructor; auto.
  destruct Hd; simpl; constructor; auto.
Qed.

Lemma combine_positions_nth (key : Series) :
  Forall (fun p => nth (snd p) key VNaN = fst p /\ snd p < length key)
    (combine key (positions key)).
Proof.
  unfold positions. apply Forall_forall. intros [c i] I.
  apply In_nth with (d := (VNaN, 0)) in I. destruct I as (n & Ln & E).
  rewrite length_combine, length_seq, Nat.min_id in Ln.
  rewrite combine_nth in E by now rewrite length_seq.
  rewrite seq_nth in E by assumption. simpl in E.
  inversion E; subst. simpl. auto.
Qed.

Lemma map_snd_combine {A B} (l : list A) (l' : list B) :
  length l = length l' -> map snd (combine l l') = l'.
Proof.
  revert l'. induction l as [|x l IH]; intros [|y l'] L; simpl in *;
    try discriminate; auto.
  f_equal. apply IH. lia.
Qed.

(** [argsort] is a rearrangement of the positions that puts the keys in
    order. *)
Lemma argsort_perm key : Permutation (positions key) (argsort key).
Proof.
  unfold argsort.
  rewrite <- (@map_snd_combine _ _ key (positions key)) at 1.
  - apply Permutation_map, sort_keyed_perm.
  - unfold positions. now rewrite length_seq.
Qed.

Lemma argsort_take key :
  take (argsort key) key =
  map fst (sort_keyed (combine key (positions key))).
Proof.
  unfold argsort, take. rewrite map_map. apply map_ext_in.
  intros p I.
  pose proof (combine_positions_nth key) as F.
  eapply Permutation_Forall in F; [|apply sort_keyed_perm].
  rewrite Forall_forall in F. now destruct (F _ I).
Qed.

Lemma argsort_sorted key : Sorted cell_le (take (argsort key) key).
Proof.
  rewrite argsort_take. apply Sorted_map_fst, sort_keyed_sorted.
Qed.

Lemma argsort_in_range key :
  Forall (fun k => k < length key) (argsort key).
Proof.
  eapply Permutation_Forall; [apply argsort_perm|].
  unfold positions. apply Forall_forall. intros k I.
  apply in_seq in I. lia.
Qed.

Lemma join_pairs_In lkey rkey p :
  In p (join_pairs lkey rkey) <-> key_match lkey rkey p.
Proof.
  unfold join_pairs, key_match, positions. rewrite in_flat_map.
  destruct p as [i j]. simpl. split.
  - intros (i' & Ii & Ij). apply in_map_iff in Ij.
    destruct Ij as (j' & E & Ij). inversion E; subst.
    apply filter_In in Ij. destruct Ij as [Ij M].
    apply in_seq in Ii. apply in_seq in Ij. repeat split; auto; lia.
  - intros (Li & Lj & M). exists i. split; [apply in_seq; lia|].
    apply in_map_iff. exists j. split; auto.
    apply filter_In. split; auto. apply in_seq; lia.
Qed.

Lemma NoDup_flat_map_pairs (f : nat -> list nat) (l : list nat) :
  NoDup l -> (forall i, NoDup (f i)) ->
  NoDup (flat_map (fun i => map (fun j => (i, j)) (f i)) l).
Proof.
  intros N Nf. induction N as [|i l Hi N IH]; simpl; [constructor|].
  apply NoDup_app; auto.
  - apply Finite.Injective_map_NoDup; auto.
    intros a b E. now inversion E.
  - intros [a b] Ia Ib. apply in_map_iff in Ia. destruct Ia as (j & E & _).
    inversion E; subst. apply in_flat_map in Ib.
    destruct Ib as (i' & Ii' & Ib). apply in_map_iff in Ib.
    destruct Ib as (j' & E' & _). inversion E'; subst. contradiction.
Qed.

Lemma join_pairs_NoDup lkey rkey : NoDup (join_pairs lkey rkey).
Proof.
  unfold join_pairs, positions.
  apply (NoDup_flat_map_pairs
           (fun i => filter (fun j => cell_eqb (nth i lkey VNaN)
                                        (nth j rkey VNaN))
                       (seq 0 (length rkey)))).
  - apply seq_NoDup.
  - intros i. apply NoDup_filter, seq_NoDup.
Qed.

(** Reading rows [idx] of the rows [js] of a column is reading the rows
    [js[idx]] of it. *)
Lemma take_take {A} (d : A) (proj : A -> nat) (ps : list A) idx
    (s : Series) :
  Forall (fun k => k < length ps) idx ->
  take idx (take (map proj ps) s) =
  take (map proj (map (fun k => nth k ps d) idx)) s.
Proof.
  intros F. unfold take. rewrite !map_map. apply map_ext_in.
  intros k I. rewrite Forall_forall in F. specialize (F _ I).
  rewrite nth_indep with (d' := nth (proj d) s VNaN)
    by now rewrite !length_map.
  now rewrite (map_nth (fun x => nth (proj x) s VNaN)).
Qed.

Lemma permuted_pairs_perm {A} (d : A) (ps : list A) idx :
  Permutation (seq 0 (length ps)) idx ->
  Permutation ps (map (fun k => nth k ps d) idx).
Proof.
  intros P. apply Permutation_map with (f := fun k => nth k ps d) in P.
  eapply perm_trans; [|exact P].
  clear. replace (map (fun k => nth k ps d) (seq 0 (length ps))) with ps;
    auto.
  induction ps as [|x ps IH]; simpl; auto.
  f_equal. rewrite <- seq_shift, map_map. exact IH.
Qed.

Lemma append_x_not_Symbol l : String.append l "_x" <> "Symbol".
Proof.
  intros H.
  repeat (destruct l as [|? l]; simpl in H; try discriminate H).
Qed.

Lemma suffixed_x_Symbol others l :
  String.eqb (suffixed "Symbol" others "_x" l) "Symbol" =
  String.eqb l "Symbol".
Proof.
  unfold suffixed. destruct (String.eqb_spec l "Symbol") as [E|N]; simpl.
  - subst. reflexivity.
  - destruct (has_label others l).
    + apply String.eqb_neq, append_x_not_Symbol.
    + now apply String.eqb_neq.
Qed.

(** The key column of the joined table is the left key, row by row. *)
Lemma joined_key snp esg pairs idx lkey :
  pd.getitem snp "Symbol" = Ok lkey ->
  pd.getitem
    {| index := idx; data := joined_columns snp esg "Symbol" pairs |}
    "Symbol" = Ok (take (map fst pairs) lkey).
Proof.
  unfold pd.getitem, joined_columns. cbn [data].
  induction (data snp) as [|c d IH]; simpl; [discriminate|].
  rewrite suffixed_x_Symbol.
  destruct (String.eqb (fst c) "Symbol"); auto.
  intros H. now inversion H.
Qed.

Lemma getitem_take_rows idx df label :
  pd.getitem (take_rows idx df) label =
  rbind (pd.getitem df label) (fun s => Ok (take idx s)).
Proof.
  unfold pd.getitem, take_rows. cbn [data].
  pose proof (find_map_snd (take idx) (fun l => String.eqb l label)
                (data df)) as F.
  cbn beta in F. rewrite F.
  destruct (find _ (data df)); reflexivity.
Qed.

Lemma joined_columns_take snp esg pairs idx :
  Forall (fun k => k < length pairs) idx ->
  map (fun c => (fst c, take idx (snd c)))
    (joined_columns snp esg "Symbol" pairs) =
  joined_columns snp esg "Symbol"
    (map (fun k => nth k pairs (0, 0)) idx).
Proof.
  intros F. unfold joined_columns. rewrite map_app, !map_map.
  f_equal; apply map_ext; intros c; cbn [fst snd]; f_equal.
  - rewrite (@take_take _ (0, 0) fst pairs idx (snd c) F).
    now rewrite map_map.
  - rewrite (@take_take _ (0, 0) snd pairs idx (snd c) F).
    now rewrite map_map.
Qed.

Lemma getitem_missing df label :
  ~ In label (columns df) -> pd.getitem df label = Raise (KeyError label).
Proof.
  intros N. unfold pd.getitem.
  destruct (find _ (data df)) as [c|] eqn:F; auto.
  apply find_some in F. destruct F as [I E]. apply String.eqb_eq in E.
  exfalso. apply N. unfold columns. rewrite <- E. now apply in_map.
Qed.

Lemma getitem_raise df label e :
  pd.getitem df label = Raise e -> e = KeyError label.
Proof.
  unfold pd.getitem. destruct (find _ (data df)); intros H; now inversion H.
Qed.

Lemma take_labels_comparable idx (key : Series) :
  Forall (fun c => exists s, c = VStr s) key ->
  comparable (take idx key) = true.
Proof.
  intros F. unfold comparable. apply orb_true_iff. left.
  apply forallb_forall. intros c I. unfold take in I.
  apply in_map_iff in I. destruct I as (i & <- & _).
  destruct (nth_in_or_default i key VNaN) as [Hi | ->]; auto.
  rewrite Forall_forall in F. now destruct (F _ Hi) as (s & ->).
Qed.

(** ** The universe loader *)

(** C7. [load_all_data] returns the inner join of the constituents table
    and the score table on ['Symbol'], sorted by ['Symbol']; when
    ['Symbol'] is missing from either table it raises the [KeyError] of
    the join, which nothing catches. *)
Theorem load_all_data_inner_join_sorted (sources : DataSources) snp esg :
  load_snp_data = Ok snp ->
  load_esg_scores = Ok esg ->
  (~ In "Symbol" (columns snp) \/ ~ In "Symbol" (columns esg) ->
   load_all_data = Raise (KeyError "Symbol")) /\
  (forall out, load_all_data = Ok out -> inner_join_sorted snp esg out) /\
  (forall lkey rkey,
      pd.getitem snp "Symbol" = Ok lkey ->
      pd.getitem esg "Symbol" = Ok rkey ->
      Forall (fun c => exists s, c = VStr s) lkey ->
      Forall (fun c => exists s, c = VStr s) rkey ->
      exists out, load_all_data = Ok out).
Proof.
  intros Hs He. unfold load_all_data. rewrite Hs, He. cbn [rbind].
  unfold pd.merge. split; [|split].
  - intros [N|N].
    + now rewrite (@getitem_missing snp "Symbol" N).
    + rewrite (@getitem_missing esg "Symbol" N).
      destruct (pd.getitem snp "Symbol") as [lkey|e] eqn:L; auto.
      cbn [rbind]. f_equal. now apply getitem_raise in L.
  - intros out H.
    destruct (pd.getitem snp "Symbol") as [lkey|] eqn:L; try discriminate.
    destruct (pd.getitem esg "Symbol") as [rkey|] eqn:R; try discriminate.
    cbn [rbind] in H. unfold pd.sort_values in H.
    rewrite (@joined_key snp esg (join_pairs lkey rkey) _ lkey L) in H.
    cbn [rbind] in H.
    set (pairs := join_pairs lkey rkey) in *.
    set (key := take (map fst pairs) lkey) in *.
    destruct (comparable key); try discriminate.
    cbn [rbind] in H. inversion H; subst out; clear H.
    assert (Lk : length key = length pairs).
    { unfold key, take. now rewrite !length_map. }
    assert (Fi : Forall (fun k => k < length pairs) (argsort key)).
    { rewrite <- Lk. apply argsort_in_range. }
    assert (Pp : Permutation pairs
                   (map (fun k => nth k pairs (0, 0)) (argsort key))).
    { apply permuted_pairs_perm. rewrite <- Lk. apply argsort_perm. }
    exists lkey, rkey, (map (fun k => nth k pairs (0, 0)) (argsort key)).
    assert (Ek : take (argsort key) key =
                 take (map fst (map (fun k => nth k pairs (0, 0))
                                  (argsort key))) lkey).
    { unfold key. now apply take_take. }
    split; [exact L|]. split; [exact R|].
    split.
    { eapply Permutation_NoDup; [exact Pp|apply join_pairs_NoDup]. }
    split.
    { intros p. rewrite <- join_pairs_In. fold pairs. split; intros I.
      - eapply Permutation_in; [apply Permutation_sym, Pp|exact I].
      - eapply Permutation_in; [exact Pp|exact I]. }
    split.
    { unfold pd.reset_index_drop, take_rows, nrows. cbn [index].
      now rewrite !length_map. }
    split.
    { unfold pd.reset_index_drop. cbn [data take_rows].
      now apply joined_columns_take. }
    split.
    { rewrite <- Ek.
      transitivity
        (pd.getitem
           (take_rows (argsort key)
              {| index := map Z.of_nat (seq 0 (length pairs));
                 data := joined_columns snp esg "Symbol" pairs |})
           "Symbol"); [reflexivity|].
      rewrite getitem_take_rows.
      rewrite (@joined_key snp esg pairs _ lkey L). reflexivity. }
    rewrite <- Ek. apply argsort_sorted.
  - intros lkey rkey L R Fl _. rewrite L, R. cbn [rbind].
    unfold pd.sort_values.
    rewrite (@joined_key snp esg (join_pairs lkey rkey) _ lkey L).
    cbn [rbind].
    rewrite (take_labels_comparable _ Fl). eexists. reflexivity.
Qed.

Lemma load_all_data_inner_join_sorted_witness :
  inner_join_sorted constituents_example scores_example combined_example /\
  @load_all_data (example_sources scores_without_key) =
    Raise (KeyError "Symbol").
Proof.
  split.
  - apply (proj1 (proj2
             (@load_all_data_inner_join_sorted
                (example_sources scores_example)
                constituents_example scores_example eq_refl eq_refl))).
    reflexivity.
  - apply (proj1
             (@load_all_data_inner_join_sorted
                (example_sources scores_without_key)
                constituents_example scores_without_key eq_refl eq_refl)).
    right. simpl. intuition discriminate.
Defined.

Example load_all_data_example :
  @load_all_data (example_sources scores_example) = Ok combined_example.
Proof. reflexivity. Qed.

(** * Further properties of the pipeline *)

(** ** The filter stage as one row test *)

Lemma gt_cell_above_b t c b :
  pd.gt_cell t c = Ok b -> above_b t c = b.
Proof. destruct c; simpl; intros H; now inversion H. Qed.

(** Selecting by the score mask after the category mask is selecting by
    the row test. *)
Lemma select_select {A} S t (g e : Series) above (xs : list A) :
  length g = length e -> length g = length xs ->
  pd.gt (select (pd.invert (pd.isin g S)) e) t = Ok above ->
  select above (select (pd.invert (pd.isin g S)) xs) =
  select (row_mask S t g e) xs.
Proof.
  unfold pd.gt, pd.invert, pd.isin, row_mask, keep_row.
  revert e xs above.
  induction g as [|c g IH]; intros [|s e] [|x xs] above Le Lx H;
    simpl in *; try discriminate.
  - now destruct above.
  - destruct (pd.isin_cell S c); simpl in *.
    + apply IH; auto.
    + destruct (pd.gt_cell t s) as [b|] eqn:G; try discriminate.
      cbn [rbind] in H.
      destruct (mapM (pd.gt_cell t) _) as [above'|] eqn:M;
        try discriminate.
      cbn [rbind] in H. inversion H; subst above; clear H.
      rewrite (gt_cell_above_b _ _ G). simpl.
      destruct b; [f_equal|]; apply IH; auto.
Qed.

Lemma filter_map_snd {A} (f : A -> A) (q : string -> bool)
    (d : list (string * A)) :
  filter (fun c => q (fst c)) (map (fun c => (fst c, f (snd c))) d) =
  map (fun c => (fst c, f (snd c))) (filter (fun c => q (fst c)) d).
Proof.
  induction d as [|c d IH]; simpl; auto.
  destruct (q (fst c)); simpl; now rewrite IH.
Qed.

(** A successful run, in terms of the two columns it reads. *)
Lemma clean_data_frame_inv_columns df S t out :
  clean_data_frame df S t = Ok out ->
  exists g e above,
    pd.getitem df "GICS Sub-Industry" = Ok g /\
    length g = nrows df /\
    (forall l, In l admin_labels -> In l (columns df)) /\
    pd.getitem df "esg_score" = Ok e /\
    pd.gt (select (pd.invert (pd.isin g S)) e) t = Ok above /\
    out =
    pd.reset_index_drop
      (pd.dropna_columns_all
         {| index := select above
                       (select (pd.invert (pd.isin g S)) (index df));
            data :=
              map (fun c => (fst c, select above (snd c)))
                (filter (fun c => negb (has_label admin_labels (fst c)))
                   (map (fun c =>
                           (fst c,
                            select (pd.invert (pd.isin g S)) (snd c)))
                      (data df))) |}).
Proof.
  intros H.
  destruct (clean_data_frame_inv _ _ _ H)
    as (g & f2 & esg & above & G & Lg & I & F2 & E & A & La & ->).
  subst f2.
  rewrite getitem_not_dropped
    with (idx' := select (pd.invert (pd.isin g S)) (index df)) in E
    by reflexivity.
  rewrite getitem_map_select in E.
  destruct (pd.getitem df "esg_score") as [e|] eqn:Ee; try discriminate.
  cbn [rbind] in E. inversion E; subst esg; clear E.
  exists g, e, above. repeat split; auto.
Qed.

Lemma clean_data_frame_selected df S t out :
  well_formed df ->
  clean_data_frame df S t = Ok out ->
  exists g e above,
    pd.getitem df "GICS Sub-Industry" = Ok g /\
    pd.getitem df "esg_score" = Ok e /\
    length g = nrows df /\ length e = nrows df /\
    (forall l, In l admin_labels -> In l (columns df)) /\
    pd.gt (select (pd.invert (pd.isin g S)) e) t = Ok above /\
    out = selected_rows (row_mask S t g e) df.
Proof.
  intros W H.
  destruct (clean_data_frame_inv_columns _ _ _ H)
    as (g & e & above & G & Lg & I & E & A & ->).
  pose proof (@well_formed_column_length df _ e W E) as Le.
  exists g, e, above. repeat split; auto.
  unfold selected_rows. f_equal. f_equal. f_equal.
  - apply select_select; auto; unfold nrows in *; congruence.
  - pose proof (filter_map_snd (@select cell (pd.invert (pd.isin g S)))
                  (fun l => negb (has_label admin_labels l)) (data df))
      as Fm.
    cbn beta in Fm. rewrite Fm. rewrite map_map. cbn [fst snd].
    apply map_ext_in. intros c Ic. f_equal.
    apply filter_In in Ic. destruct Ic as [Ic _].
    destruct W as [_ W]. rewrite Forall_forall in W.
    apply select_select; auto; try congruence.
    rewrite (W _ Ic). exact Lg.
Qed.

(** X1. A successful [clean_data] returns exactly the rows of its input
    that pass the row test, in their order, without the three dropped
    columns and without the columns left with no value. *)
Theorem clean_data_selects_rows df S t out g e :
  well_formed df ->
  pd.getitem df "GICS Sub-Industry" = Ok g ->
  pd.getitem df "esg_score" = Ok e ->
  clean_data_on df S t = Ok out ->
  out = selected_rows (row_mask S t g e) df.
Proof.
  intros W G E H. rewrite clean_data_on_frame in H.
  destruct (@clean_data_frame_selected df S t out W H)
    as (g' & e' & above & G' & E' & _ & _ & _ & _ & ->).
  congruence.
Qed.

Lemma clean_data_selects_rows_witness :
  filtered_A =
  selected_rows
    (row_mask ["Y"] 80 [VStr "X"; VStr "Y"]
       [VNum (inject_Z 90); VNum (inject_Z 70)])
    universe_AB.
Proof.
  apply (@clean_data_selects_rows universe_AB ["Y"] 80%Z filtered_A
           [VStr "X"; VStr "Y"] [VNum (inject_Z 90); VNum (inject_Z 70)]).
  - exact universe_AB_well_formed.
  - reflexivity.
  - reflexivity.
  - reflexivity.
Defined.

(** ** How the filter stage reacts to its parameters *)

Lemma nrows_selected_rows mask df :
  nrows (selected_rows mask df) = length (select mask (index df)).
Proof.
  unfold selected_rows, pd.reset_index_drop, nrows. cbn [index].
  now rewrite length_map, length_seq.
Qed.

Lemma mask_le_select_length {A} (m' m : list bool) (xs : list A) :
  mask_le m' m -> length (select m' xs) <= length (select m xs).
Proof.
  intros F. revert xs.
  induction F as [|b' b m' m Hb F IH]; intros [|x xs]; simpl; auto.
  specialize (IH xs). destruct b'; [rewrite (Hb eq_refl); simpl; lia|].
  destruct b; simpl; lia.
Qed.

Lemma above_b_mono t t' c :
  (t <= t')%Z -> above_b t' c = true -> above_b t c = true.
Proof.
  intros L. destruct c as [q| |]; simpl; auto.
  rewrite !negb_true_iff. intros H.
  destruct (Qle_bool q (inject_Z t)) eqn:E; auto.
  apply Qle_bool_iff in E.
  assert (Qle_bool q (inject_Z t') = true); [|congruence].
  apply Qle_bool_iff. eapply Qle_trans; [exact E|].
  rewrite <- Zle_Qle. exact L.
Qed.

Lemma row_mask_threshold_mono S t t' g e :
  (t <= t')%Z -> mask_le (row_mask S t' g e) (row_mask S t g e).
Proof.
  intros L. unfold row_mask, mask_le.
  induction (combine g e) as [|p l IH]; simpl; constructor; auto.
  unfold keep_row. rewrite !andb_true_iff. intros [H1 H2]. split; auto.
  now apply (above_b_mono _ L).
Qed.

Lemma isin_cell_incl S S' c :
  incl S S' -> pd.isin_cell S c = true -> pd.isin_cell S' c = true.
Proof.
  intros I. destruct c; simpl; auto.
  rewrite !has_label_In. apply I.
Qed.

Lemma row_mask_excluded_mono S S' t g e :
  incl S S' -> mask_le (row_mask S' t g e) (row_mask S t g e).
Proof.
  intros I. unfold row_mask, mask_le.
  induction (combine g e) as [|p l IH]; simpl; constructor; auto.
  unfold keep_row. rewrite !andb_true_iff, !negb_true_iff.
  intros [H1 H2]. split; auto.
  destruct (pd.isin_cell S (fst p)) eqn:E; auto.
  apply (isin_cell_incl _ I) in E. congruence.
Qed.

(** Whether the score comparison raises depends on the cells, not on the
    threshold. *)
Lemma gt_ok_any_threshold s t t' m :
  pd.gt s t = Ok m -> exists m', pd.gt s t' = Ok m'.
Proof.
  unfold pd.gt. revert m. induction s as [|c s IH]; simpl; intros m H.
  - now exists [].
  - destruct (pd.gt_cell t c) as [b|] eqn:G; try discriminate.
    cbn [rbind] in H.
    destruct (mapM (pd.gt_cell t) s) as [m0|]; try discriminate.
    destruct (IH m0 eq_refl) as (m' & ->).
    destruct c; simpl in *; try discriminate; eexists; reflexivity.
Qed.

(** Comparing fewer rows cannot raise where comparing more did not. *)
Lemma gt_ok_fewer_rows S S' (g e : Series) t m :
  incl S S' ->
  pd.gt (select (pd.invert (pd.isin g S)) e) t = Ok m ->
  exists m', pd.gt (select (pd.invert (pd.isin g S')) e) t = Ok m'.
Proof.
  intros I. unfold pd.gt, pd.invert, pd.isin. revert e m.
  induction g as [|c g IH]; intros [|s e] m H; simpl in *;
    try (now exists []).
  destruct (pd.isin_cell S c) eqn:E.
  - rewrite (isin_cell_incl _ I E). simpl in *. eapply IH; eauto.
  - simpl in H.
    destruct (pd.gt_cell t s) as [b|] eqn:G; try discriminate.
    cbn [rbind] in H.
    destruct (mapM (pd.gt_cell t) _) as [m0|] eqn:M; try discriminate.
    destruct (IH e m0 M) as (m' & Hm').
    destruct (pd.isin_cell S' c); simpl.
    + now exists m'.
    + rewrite G. cbn [rbind]. rewrite Hm'. eexists. reflexivity.
Qed.

(** X2. Raising the minimum score never adds a row and never turns a
    successful run into a failing one. *)
Theorem clean_data_threshold_monotone df S t t' out :
  well_formed df ->
  clean_data_on df S t = Ok out ->
  (t <= t')%Z ->
  exists out', clean_data_on df S t' = Ok out' /\ nrows out' <= nrows out.
Proof.
  intros W H L. rewrite clean_data_on_frame in *.
  destruct (@clean_data_frame_selected df S t out W H)
    as (g & e & above & G & E & Lg & Le & I & A & ->).
  destruct (@gt_ok_any_threshold _ t t' above A) as (above' & A').
  pose proof (@clean_data_frame_success df S t' g e above' G Lg I E Le A')
    as H'.
  eexists. split; [exact H'|].
  destruct (@clean_data_frame_selected df S t' _ W H')
    as (g2 & e2 & _ & G2 & E2 & _ & _ & _ & _ & ->).
  rewrite G in G2. inversion G2; subst g2.
  rewrite E in E2. inversion E2; subst e2.
  rewrite !nrows_selected_rows.
  now apply mask_le_select_length, row_mask_threshold_mono.
Qed.

Lemma clean_data_threshold_monotone_witness :
  exists out',
    clean_data_on universe_AB ["Y"] 95 = Ok out' /\
    nrows out' <= nrows filtered_A.
Proof.
  apply (@clean_data_threshold_monotone universe_AB ["Y"] 80%Z 95%Z
           filtered_A).
  - exact universe_AB_well_formed.
  - reflexivity.
  - lia.
Defined.

(** X3. Excluding more categories never adds a row and never turns a
    successful run into a failing one. *)
Theorem clean_data_excluded_monotone df S S' t out :
  well_formed df ->
  clean_data_on df S t = Ok out ->
  incl S S' ->
  exists out', clean_data_on df S' t = Ok out' /\ nrows out' <= nrows out.
Proof.
  intros W H L. rewrite clean_data_on_frame in *.
  destruct (@clean_data_frame_selected df S t out W H)
    as (g & e & above & G & E & Lg & Le & I & A & ->).
  destruct (@gt_ok_fewer_rows S S' g e t above L A) as (above' & A').
  pose proof (@clean_data_frame_success df S' t g e above' G Lg I E Le A')
    as H'.
  eexists. split; [exact H'|].
  destruct (@clean_data_frame_selected df S' t _ W H')
    as (g2 & e2 & _ & G2 & E2 & _ & _ & _ & _ & ->).
  rewrite G in G2. inversion G2; subst g2.
  rewrite E in E2. inversion E2; subst e2.
  rewrite !nrows_selected_rows.
  now apply mask_le_select_length, row_mask_excluded_mono.
Qed.

Lemma clean_data_excluded_monotone_witness :
  exists out',
    clean_data_on universe_AB ["Y"; "X"] 80 = Ok out' /\
    nrows out' <= nrows filtered_A.
Proof.
  apply (@clean_data_excluded_monotone universe_AB ["Y"] ["Y"; "X"] 80%Z
           filtered_A).
  - exact universe_AB_well_formed.
  - reflexivity.
  - intros x Hx. simpl in *. tauto.
Defined.

(** ** What the filter stage returns and raises *)

Lemma NoDup_map_fst_filter {A} (p : string * A -> bool)
    (d : list (string * A)) :
  NoDup (map fst d) -> NoDup (map fst (filter p d)).
Proof.
  induction d as [|c d IH]; simpl; intros N; auto.
  inversion N as [|? ? Hn N']; subst.
  destruct (p c); simpl; auto. constructor; auto.
  intros I. apply Hn. apply in_map_iff in I. destruct I as (x & <- & I).
  apply filter_In in I. apply in_map. tauto.
Qed.

Lemma map_fst_map_snd {A} (f : A -> A) (d : list (string * A)) :
  map fst (map (fun c => (fst c, f (snd c))) d) = map fst d.
Proof. rewrite map_map. reflexivity. Qed.

Lemma selected_rows_well_formed mask df :
  well_formed df -> well_formed (selected_rows mask df).
Proof.
  intros [N W]. split.
  - unfold columns, selected_rows. cbn [pd.reset_index_drop
      pd.dropna_columns_all data].
    apply NoDup_map_fst_filter. rewrite map_fst_map_snd.
    now apply NoDup_map_fst_filter.
  - rewrite nrows_selected_rows. unfold selected_rows.
    cbn [pd.reset_index_drop pd.dropna_columns_all data].
    apply Forall_forall. intros c I.
    apply filter_In in I. destruct I as [I _].
    apply in_map_iff in I. destruct I as (c0 & <- & I). cbn [snd].
    apply filter_In in I. destruct I as [I _].
    rewrite Forall_forall in W. apply select_length.
    unfold nrows in W. now apply W.
Qed.

(** X4. [clean_data] keeps a table well formed: the output has distinct
    labels, columns as long as its index, and the index 0, 1, ..., n-1. *)
Theorem clean_data_output_well_formed df S t out :
  well_formed df ->
  clean_data_on df S t = Ok out ->
  well_formed out /\
  index out = map Z.of_nat (seq 0 (nrows out)).
Proof.
  intros W H. rewrite clean_data_on_frame in H.
  destruct (@clean_data_frame_selected df S t out W H)
    as (g & e & above & _ & _ & _ & _ & _ & _ & ->).
  split; [now apply selected_rows_well_formed|].
  rewrite nrows_selected_rows. unfold selected_rows.
  cbn [pd.reset_index_drop index pd.dropna_columns_all]. reflexivity.
Qed.

Lemma clean_data_output_well_formed_witness :
  well_formed filtered_A /\
  index filtered_A = map Z.of_nat (seq 0 (nrows filtered_A)).
Proof.
  apply (@clean_data_output_well_formed universe_AB ["Y"] 80%Z filtered_A).
  - exact universe_AB_well_formed.
  - reflexivity.
Defined.

(** X5. [clean_data] never returns a column it was not given, never one
    of the three administrative columns, and never a column whose cells
    are all missing. *)
Theorem clean_data_output_columns df S t out l s :
  clean_data_on df S t = Ok out ->
  In (l, s) (data out) ->
  In l (columns df) /\
  ~ In l ["SEC filings"; "CIK"; "ticker_name"] /\
  exists c, In c s /\ c <> VNaN.
Proof.
  rewrite clean_data_on_frame. intros H I.
  pose proof (@clean_data_output_notna df S t out l s H I) as N.
  assert (Il : In l (columns out)).
  { unfold columns. change l with (fst (l, s)). now apply in_map. }
  pose proof (@clean_data_output_labels df S t out l H Il) as A.
  split; [|split].
  - destruct (clean_data_frame_inv_columns _ _ _ H)
      as (g & e & above & _ & _ & _ & _ & _ & ->).
    cbn [pd.reset_index_drop pd.dropna_columns_all data] in I.
    apply filter_In in I. destruct I as [I _].
    apply in_map_iff in I. destruct I as (c1 & E1 & I).
    apply filter_In in I. destruct I as [I _].
    apply in_map_iff in I. destruct I as (c0 & E0 & I).
    subst c1. cbn [fst snd] in E1. inversion E1; subst.
    unfold columns. now apply in_map.
  - intros Ia. apply has_label_In in Ia. unfold admin_labels in A.
    congruence.
  - now apply existsb_notna_iff.
Qed.

Lemma clean_data_output_columns_witness :
  In "Symbol" (columns universe_AB) /\
  ~ In "Symbol" ["SEC filings"; "CIK"; "ticker_name"] /\
  exists c, In c [VStr "A"] /\ c <> VNaN.
Proof.
  apply (@clean_data_output_columns universe_AB ["Y"] 80%Z filtered_A
           "Symbol" [VStr "A"]).
  - reflexivity.
  - simpl. auto.
Defined.

Lemma select_none {A B} (mask : list bool) (xs : list A) (ys : list B) :
  length mask = length xs -> length (select mask xs) = 0 ->
  select mask ys = [].
Proof.
  revert xs ys.
  induction mask as [|b mask IH]; intros [|x xs] [|y ys] L Hz;
    simpl in *; try discriminate; auto.
  destruct b; simpl in *; try discriminate. eapply IH; eauto.
Qed.

(** X6. When no row passes, [clean_data] returns the table with no row
    and no column at all (every column is then all-missing and dropped);
    the price loader, which reads its [Symbol] column, raises on it. *)
Theorem clean_data_nothing_left (sources : DataSources) df S t out :
  clean_data_on df S t = Ok out ->
  nrows out = 0 ->
  out = empty_frame /\
  load_price_data out = Raise (AttributeError "Symbol").
Proof.
  rewrite clean_data_on_frame. intros H Hz.
  assert (E : out = empty_frame).
  { destruct (clean_data_frame_inv _ _ _ H)
      as (g & f2 & esg & above & _ & _ & _ & _ & _ & _ & La & ->).
    assert (Hz' : length (select above (index f2)) = 0).
    { revert Hz. unfold nrows, pd.reset_index_drop, pd.dropna_columns_all.
      cbn [index]. now rewrite length_map, length_seq. }
    unfold nrows in La. clear H Hz.
    unfold pd.reset_index_drop, pd.dropna_columns_all, nrows, empty_frame.
    cbn [index data]. rewrite Hz'. cbn [seq map]. f_equal.
    induction (data f2) as [|c d IH]; simpl; auto.
    rewrite (@select_none _ _ above (index f2) (snd c) La Hz'). simpl.
    exact IH. }
  split; [exact E|]. subst out. reflexivity.
Qed.

Lemma clean_data_nothing_left_witness :
  empty_frame = empty_frame /\
  @load_price_data (example_sources scores_example) empty_frame =
    Raise (AttributeError "Symbol").
Proof.
  apply (@clean_data_nothing_left (example_sources scores_example)
           universe_AB ["Y"] 95%Z empty_frame); reflexivity.
Defined.

(** Up to the score comparison, a run on a table that has the columns it
    needs cannot fail. *)
Lemma clean_data_frame_until_gt df S t g e :
  pd.getitem df "GICS Sub-Industry" = Ok g ->
  length g = nrows df ->
  (forall l, In l admin_labels -> In l (columns df)) ->
  pd.getitem df "esg_score" = Ok e ->
  forall err,
    pd.gt (select (pd.invert (pd.isin g S)) e) t = Raise err ->
    clean_data_frame df S t = Raise err.
Proof.
  intros G Lg I E err A. unfold clean_data_frame. rewrite G. cbn [rbind].
  unfold pd.getitem_mask at 1.
  replace (length (pd.invert (pd.isin g S)) =? nrows df)%nat with true.
  2:{ symmetry. apply Nat.eqb_eq. unfold pd.invert, pd.isin.
      now rewrite !length_map. }
  cbn [rbind]. rewrite drop_ok.
  2:{ intros l Hl. unfold columns. cbn [data]. rewrite map_map. simpl.
      now apply I. }
  cbn [rbind index data].
  rewrite getitem_not_dropped
    with (idx' := select (pd.invert (pd.isin g S)) (index df))
    by reflexivity.
  rewrite getitem_map_select, E. cbn [rbind]. rewrite A. reflexivity.
Qed.

Lemma gt_text_raises s t x :
  In (VStr x) s -> pd.gt s t = Raise TypeError.
Proof.
  unfold pd.gt. induction s as [|c s IH]; simpl; [contradiction|].
  intros [->|I]; [reflexivity|].
  destruct c; simpl; auto; now rewrite (IH I).
Qed.

Lemma select_In {A} (mask : list bool) (xs : list A) i x :
  nth_error mask i = Some true -> nth_error xs i = Some x ->
  In x (select mask xs).
Proof.
  revert xs i. induction mask as [|b mask IH]; intros [|y xs] [|i] M X;
    simpl in *; try discriminate.
  - inversion M; inversion X; subst. simpl. auto.
  - destruct b; simpl; eauto.
Qed.

(** X7. Which exception [clean_data] raises: a missing category column
    comes first; then, on a well-formed table, a missing administrative
    column; then a missing score column. *)
Theorem clean_data_missing_column df S t :
  (~ In "GICS Sub-Industry" (columns df) ->
   clean_data_on df S t = Raise (KeyError "GICS Sub-Industry")) /\
  (well_formed df ->
   In "GICS Sub-Industry" (columns df) ->
   (exists l, In l ["SEC filings"; "CIK"; "ticker_name"] /\
              ~ In l (columns df)) ->
   exists l, In l ["SEC filings"; "CIK"; "ticker_name"] /\
             ~ In l (columns df) /\
             clean_data_on df S t = Raise (KeyError l)) /\
  (well_formed df ->
   In "GICS Sub-Industry" (columns df) ->
   (forall l, In l ["SEC filings"; "CIK"; "ticker_name"] ->
              In l (columns df)) ->
   ~ In "esg_score" (columns df) ->
   clean_data_on df S t = Raise (KeyError "esg_score")).
Proof.
  rewrite clean_data_on_frame. split; [|split].
  - intros N. unfold clean_data_frame.
    now rewrite (@getitem_missing df _ N).
  - intros W IG (l0 & Il0 & Nl0).
    destruct (@getitem_of_label df _ IG) as (g & G).
    pose proof (@well_formed_column_length df _ g W G) as Lg.
    unfold clean_data_frame. rewrite G. cbn [rbind].
    unfold pd.getitem_mask.
    replace (length (pd.invert (pd.isin g S)) =? nrows df)%nat with true.
    2:{ symmetry. apply Nat.eqb_eq. unfold pd.invert, pd.isin.
        now rewrite !length_map. }
    cbn [rbind]. unfold pd.drop.
    destruct (find _ _) as [l|] eqn:F.
    + apply find_some in F. destruct F as [Il Nl].
      exists l. split; [exact Il|]. split; [|reflexivity].
      apply negb_true_iff in Nl. intros Hin.
      assert (has_label (columns df) l = true) by now apply has_label_In.
      unfold columns in *. cbn [data] in Nl.
      rewrite map_fst_map_snd in Nl. congruence.
    + exfalso. pose proof (find_none _ _ F _ Il0) as Hn.
      apply negb_false_iff, has_label_In in Hn. apply Nl0.
      unfold columns in *. cbn [data] in Hn.
      rewrite map_fst_map_snd in Hn. exact Hn.
  - intros W IG I N.
    destruct (@getitem_of_label df _ IG) as (g & G).
    pose proof (@well_formed_column_length df _ g W G) as Lg.
    unfold clean_data_frame. rewrite G. cbn [rbind].
    unfold pd.getitem_mask at 1.
    replace (length (pd.invert (pd.isin g S)) =? nrows df)%nat with true.
    2:{ symmetry. apply Nat.eqb_eq. unfold pd.invert, pd.isin.
        now rewrite !length_map. }
    cbn [rbind]. rewrite drop_ok.
    2:{ intros l Hl. unfold columns. cbn [data]. rewrite map_map. simpl.
        now apply I. }
    cbn [rbind index data].
    rewrite getitem_not_dropped
      with (idx' := select (pd.invert (pd.isin g S)) (index df))
      by reflexivity.
    rewrite getitem_map_select, (@getitem_missing df _ N). reflexivity.
Qed.

Lemma clean_data_missing_column_witness :
  clean_data_on empty_frame ["Y"] 80 =
    Raise (KeyError "GICS Sub-Industry") /\
  (exists l, In l ["SEC filings"; "CIK"; "ticker_name"] /\
             ~ In l (columns universe_no_CIK) /\
             clean_data_on universe_no_CIK ["Y"] 80 = Raise (KeyError l)).
Proof.
  split.
  - apply (proj1 (clean_data_missing_column empty_frame ["Y"] 80)).
    simpl. tauto.
  - apply (proj1 (proj2 (clean_data_missing_column universe_no_CIK
                           ["Y"] 80))).
    + solve_well_formed.
    + simpl. auto.
    + exists "CIK". split; simpl; [auto|intuition discriminate].
Defined.

(** X8. A text score in a row that the category filter keeps makes
    [clean_data] raise [TypeError]; nothing is returned for the other
    rows. *)
Theorem clean_data_text_score df S t g e i c x :
  well_formed df ->
  pd.getitem df "GICS Sub-Industry" = Ok g ->
  pd.getitem df "esg_score" = Ok e ->
  (forall l, In l ["SEC filings"; "CIK"; "ticker_name"] ->
             In l (columns df)) ->
  nth_error g i = Some c ->
  pd.isin_cell S c = false ->
  nth_error e i = Some (VStr x) ->
  clean_data_on df S t = Raise TypeError.
Proof.
  intros W G E I Hc Hn Hx. rewrite clean_data_on_frame.
  apply (@clean_data_frame_until_gt df S t g e); auto.
  - now apply (@well_formed_column_length df _ g W G).
  - apply gt_text_raises with (x := x).
    apply select_In with (i := i); auto.
    unfold pd.invert, pd.isin. rewrite map_map, nth_error_map, Hc.
    simpl. now rewrite Hn.
Qed.

Lemma clean_data_text_score_witness :
  clean_data_on universe_text_score ["Y"] 80 = Raise TypeError.
Proof.
  apply (@clean_data_text_score universe_text_score ["Y"] 80%Z
           [VStr "X"; VStr "Y"] [VStr "n/a"; VNum (inject_Z 70)]
           0 (VStr "X") "n/a"); try reflexivity.
  - solve_well_formed.
  - intros l Hl. simpl in *. intuition.
Defined.

(** ** The universe loader: rows, labels and failures *)

Lemma load_all_data_joined (sources : DataSources) snp esg out :
  load_snp_data = Ok snp ->
  load_esg_scores = Ok esg ->
  load_all_data = Ok out ->
  inner_join_sorted snp esg out.
Proof.
  intros Hs He. unfold load_all_data. rewrite Hs, He. cbn [rbind].
  unfold pd.merge.
  intros H.
  destruct (pd.getitem snp "Symbol") as [lkey|] eqn:L; try discriminate.
  destruct (pd.getitem esg "Symbol") as [rkey|] eqn:R; try discriminate.
  cbn [rbind] in H. unfold pd.sort_values in H.
  rewrite (@joined_key snp esg (join_pairs lkey rkey) _ lkey L) in H.
  cbn [rbind] in H.
  set (pairs := join_pairs lkey rkey) in *.
  set (key := take (map fst pairs) lkey) in *.
  destruct (comparable key); try discriminate.
  cbn [rbind] in H. inversion H; subst out; clear H.
  assert (Lk : length key = length pairs).
  { unfold key, take. now rewrite !length_map. }
  assert (Fi : Forall (fun k => k < length pairs) (argsort key)).
  { rewrite <- Lk. apply argsort_in_range. }
  assert (Pp : Permutation pairs
                 (map (fun k => nth k pairs (0, 0)) (argsort key))).
  { apply permuted_pairs_perm. rewrite <- Lk. apply argsort_perm. }
  exists lkey, rkey, (map (fun k => nth k pairs (0, 0)) (argsort key)).
  assert (Ek : take (argsort key) key =
               take (map fst (map (fun k => nth k pairs (0, 0))
                                (argsort key))) lkey).
  { unfold key. now apply take_take. }
  split; [exact L|]. split; [exact R|].
  split.
  { eapply Permutation_NoDup; [exact Pp|apply join_pairs_NoDup]. }
  split.
  { intros p. rewrite <- join_pairs_In. fold pairs. split; intros I.
    - eapply Permutation_in; [apply Permutation_sym, Pp|exact I].
    - eapply Permutation_in; [exact Pp|exact I]. }
  split.
  { unfold pd.reset_index_drop, take_rows, nrows. cbn [index].
    now rewrite !length_map. }
  split.
  { unfold pd.reset_index_drop. cbn [data take_rows].
    now apply joined_columns_take. }
  split.
  { rewrite <- Ek.
    transitivity
      (pd.getitem
         (take_rows (argsort key)
            {| index := map Z.of_nat (seq 0 (length pairs));
               data := joined_columns snp esg "Symbol" pairs |})
         "Symbol"); [reflexivity|].
    rewrite getitem_take_rows.
    rewrite (@joined_key snp esg pairs _ lkey L). reflexivity. }
  rewrite <- Ek. apply argsort_sorted.
Qed.

(** X9. [load_all_data] has no recovery: a failing fetch of the
    reference page or of the score file is what it raises, and a page
    without any table makes it raise [IndexError]. *)
Theorem load_all_data_loader_failure (sources : DataSources) :
  (forall e,
      read_html "https://en.wikipedia.org/wiki/List_of_S%26P_500_companies"
        = Raise e ->
      load_all_data = Raise e) /\
  (read_html "https://en.wikipedia.org/wiki/List_of_S%26P_500_companies"
     = Ok [] ->
   load_all_data = Raise IndexError) /\
  (forall snp e,
      load_snp_data = Ok snp ->
      read_excel "esg_scores.xlsx" = Raise e ->
      load_all_data = Raise e).
Proof.
  unfold load_all_data, load_snp_data, load_esg_scores, ESG_SCORE_FILENAME.
  split; [|split].
  - intros e H. now rewrite H.
  - intros H. now rewrite H.
  - intros snp e H1 H2. now rewrite H1, H2.
Qed.

Lemma load_all_data_loader_failure_witness :
  @load_all_data unreachable_sources =
    Raise (ExternalError "HTTP Error 503") /\
  @load_all_data no_table_sources = Raise IndexError.
Proof.
  split.
  - apply (proj1 (load_all_data_loader_failure unreachable_sources)).
    reflexivity.
  - apply (proj1 (proj2 (load_all_data_loader_failure no_table_sources))).
    reflexivity.
Defined.

Lemma suffixed_unshared on others suffix l :
  (In l others -> l = on) -> suffixed on others suffix l = l.
Proof.
  intros H. unfold suffixed.
  destruct (String.eqb_spec l on) as [E|N]; simpl; auto.
  destruct (has_label others l) eqn:Hl; auto.
  apply has_label_In in Hl. now apply H in Hl.
Qed.

Lemma other_labels_unsuffixed (rename : string -> string)
    (d : list (string * Series)) :
  (forall c, In c d -> fst c <> "Symbol" -> rename (fst c) = fst c) ->
  map (fun c => rename (fst c))
    (filter (fun c => negb (String.eqb (fst c) "Symbol")) d) =
  other_labels "Symbol" (map fst d).
Proof.
  unfold other_labels. induction d as [|c d IH]; simpl; intros H; auto.
  destruct (String.eqb_spec (fst c) "Symbol") as [E|N]; simpl.
  - apply IH. intros c' I. apply H. auto.
  - f_equal; [apply H; auto|]. apply IH. intros c' I. apply H. auto.
Qed.

Lemma joined_columns_labels snp esg ps :
  (forall l, In l (columns snp) -> In l (columns esg) -> l = "Symbol") ->
  map fst (joined_columns snp esg "Symbol" ps) =
  columns snp ++ other_labels "Symbol" (columns esg).
Proof.
  intros Sh. unfold joined_columns.
  rewrite map_app, !map_map. cbn [fst]. f_equal.
  - unfold columns at 2. apply map_ext_in. intros c I.
    apply suffixed_unshared.
    intros Ie. apply Sh; auto. unfold columns. now apply in_map.
  - unfold columns at 2.
    apply (other_labels_unsuffixed
             (suffixed "Symbol" (columns snp) "_y")).
    intros c I N. apply suffixed_unshared. intros Is. exfalso. apply N.
    apply Sh; auto. unfold columns. now apply in_map.
Qed.

(** X10. When the two source tables are well formed and share no label
    but ['Symbol'], the table [load_all_data] returns is well formed and
    carries the labels of the constituents table followed by the other
    labels of the score table, unchanged (no suffix is added). *)
Theorem load_all_data_well_formed (sources : DataSources) snp esg out :
  load_snp_data = Ok snp ->
  load_esg_scores = Ok esg ->
  well_formed snp ->
  well_formed esg ->
  (forall l, In l (columns snp) -> In l (columns esg) -> l = "Symbol") ->
  load_all_data = Ok out ->
  well_formed out /\
  columns out = columns snp ++ other_labels "Symbol" (columns esg).
Proof.
  intros Hs He [Ns _] [Ne _] Sh H.
  destruct (@load_all_data_joined sources snp esg out Hs He H)
    as (lkey & rkey & ps & _ & _ & _ & _ & Ei & Ed & _ & _).
  assert (Ec : columns out =
               columns snp ++ other_labels "Symbol" (columns esg)).
  { unfold columns at 1. rewrite Ed. now apply joined_columns_labels. }
  split; [|exact Ec]. split.
  - rewrite Ec. apply NoDup_app; auto.
    + unfold other_labels. now apply NoDup_filter.
    + intros l I1 I2. unfold other_labels in I2.
      apply filter_In in I2. destruct I2 as [I2 N].
      rewrite (Sh l I1 I2) in N. discriminate.
  - unfold nrows. rewrite Ei, Ed, length_map, length_seq.
    unfold joined_columns. apply Forall_app. split.
    + apply Forall_forall. intros c I. apply in_map_iff in I.
      destruct I as (c0 & <- & _). cbn [snd]. unfold take.
      now rewrite !length_map.
    + apply Forall_forall. intros c I. apply in_map_iff in I.
      destruct I as (c0 & <- & _). cbn [snd]. unfold take.
      now rewrite !length_map.
Qed.

Lemma load_all_data_well_formed_witness :
  well_formed combined_example /\
  columns combined_example =
    columns constituents_example ++
    other_labels "Symbol" (columns scores_example).
Proof.
  apply (@load_all_data_well_formed (example_sources scores_example)
           constituents_example scores_example combined_example);
    try reflexivity.
  - solve_well_formed.
  - solve_well_formed.
  - intros l H1 H2. simpl in H1, H2.
    destruct H1 as [<-|[<-|[<-|[]]]]; auto;
      destruct H2 as [E|[E|[]]]; try discriminate E; auto.
Defined.

Lemma cell_eqb_text s c : cell_eqb (VStr s) c = true -> c = VStr s.
Proof.
  destruct c; simpl; try discriminate.
  intros E. apply String.eqb_eq in E. now subst.
Qed.

Lemma inner_join_tickers snp esg out lkey rkey key s :
  inner_join_sorted snp esg out ->
  pd.getitem snp "Symbol" = Ok lkey ->
  pd.getitem esg "Symbol" = Ok rkey ->
  pd.getitem out "Symbol" = Ok key ->
  (In (VStr s) key <-> In (VStr s) lkey /\ In (VStr s) rkey).
Proof.
  intros (lkey' & rkey' & ps & L' & R' & _ & M & _ & _ & K' & _) L R K.
  rewrite L in L'. inversion L'; subst lkey'.
  rewrite R in R'. inversion R'; subst rkey'.
  rewrite K in K'. inversion K'; subst key. clear L' R' K'.
  unfold take. rewrite map_map. split.
  - intros I. apply in_map_iff in I. destruct I as (p & E & I).
    apply M in I. destruct I as (Li & Lj & Q).
    rewrite E in Q. apply cell_eqb_text in Q. split.
    + rewrite <- E. now apply nth_In.
    + rewrite <- Q. now apply nth_In.
  - intros [Il Ir].
    apply In_nth with (d := VNaN) in Il. destruct Il as (i & Li & Ei).
    apply In_nth with (d := VNaN) in Ir. destruct Ir as (j & Lj & Ej).
    apply in_map_iff. exists (i, j). split; [exact Ei|].
    apply M. repeat split; auto. cbn [fst snd]. rewrite Ei, Ej.
    simpl. apply String.eqb_refl.
Qed.

(** X11. A ticker is in the table [load_all_data] returns exactly when it
    is in the constituents table and in the score table. *)
Theorem load_all_data_tickers (sources : DataSources) snp esg out
    lkey rkey key s :
  load_snp_data = Ok snp ->
  load_esg_scores = Ok esg ->
  load_all_data = Ok out ->
  pd.getitem snp "Symbol" = Ok lkey ->
  pd.getitem esg "Symbol" = Ok rkey ->
  pd.getitem out "Symbol" = Ok key ->
  (In (VStr s) key <-> In (VStr s) lkey /\ In (VStr s) rkey).
Proof.
  intros Hs He H L R K.
  apply (@inner_join_tickers snp esg out lkey rkey key s); auto.
  now apply (@load_all_data_joined sources snp esg out).
Qed.

Lemma load_all_data_tickers_witness :
  In (VStr "MMM") [VStr "ABT"; VStr "MMM"] <->
  In (VStr "MMM") [VStr "MMM"; VStr "AOS"; VStr "ABT"] /\
  In (VStr "MMM") [VStr "ABT"; VStr "ZTS"; VStr "MMM"].
Proof.
  apply (@load_all_data_tickers (example_sources scores_example)
           constituents_example scores_example combined_example);
    reflexivity.
Defined.

Lemma key_match_text lkey rkey i j :
  all_text lkey -> all_text rkey ->
  key_match lkey rkey (i, j) ->
  nth i lkey VNaN = nth j rkey VNaN.
Proof.
  intros Tl Tr (Li & Lj & Q). cbn [fst snd] in *.
  unfold all_text in *. rewrite Forall_forall in Tl.
  destruct (Tl _ (nth_In lkey VNaN Li)) as (x & Ex).
  rewrite Ex in Q |- *. apply cell_eqb_text in Q. now rewrite Q.
Qed.

(** X12. When each ticker is listed once in the constituents table and
    once in the score table, it is listed at most once in the table
    [load_all_data] returns, which has at most as many rows as either
    source. *)
Theorem load_all_data_distinct_tickers (sources : DataSources)
    snp esg out lkey rkey key :
  load_snp_data = Ok snp ->
  load_esg_scores = Ok esg ->
  load_all_data = Ok out ->
  pd.getitem snp "Symbol" = Ok lkey ->
  pd.getitem esg "Symbol" = Ok rkey ->
  pd.getitem out "Symbol" = Ok key ->
  all_text lkey -> all_text rkey ->
  NoDup lkey -> NoDup rkey ->
  NoDup key /\ nrows out <= length lkey /\ nrows out <= length rkey.
Proof.
  intros Hs He H L R K Tl Tr Nl Nr.
  destruct (@load_all_data_joined sources snp esg out Hs He H)
    as (lkey' & rkey' & ps & L' & R' & Np & M & Ei & _ & K' & _).
  rewrite L in L'. inversion L'; subst lkey'.
  rewrite R in R'. inversion R'; subst rkey'.
  rewrite K in K'. inversion K'; subst key. clear L' R' K'.
  assert (Nf : NoDup (map fst ps)).
  { apply NoDup_map_NoDup_ForallPairs; auto.
    intros [i j] [i' j'] I I' E. cbn [fst] in E. subst i'. f_equal.
    apply M in I. apply M in I'.
    pose proof (key_match_text Tl Tr I) as E1.
    pose proof (key_match_text Tl Tr I') as E2.
    destruct I as (_ & Lj & _), I' as (_ & Lj' & _). cbn [snd] in *.
    apply (proj1 (NoDup_nth rkey VNaN) Nr); auto. congruence. }
  assert (Ns : NoDup (map snd ps)).
  { apply NoDup_map_NoDup_ForallPairs; auto.
    intros [i j] [i' j'] I I' E. cbn [snd] in E. subst j'. f_equal.
    apply M in I. apply M in I'.
    pose proof (key_match_text Tl Tr I) as E1.
    pose proof (key_match_text Tl Tr I') as E2.
    destruct I as (Li & _ & _), I' as (Li' & _ & _). cbn [fst] in *.
    apply (proj1 (NoDup_nth lkey VNaN) Nl); auto. congruence. }
  assert (Ff : incl (map fst ps) (seq 0 (length lkey))).
  { intros i I. apply in_map_iff in I. destruct I as (p & <- & I).
    apply M in I. destruct I as (Li & _). apply in_seq. lia. }
  assert (Fs : incl (map snd ps) (seq 0 (length rkey))).
  { intros j I. apply in_map_iff in I. destruct I as (p & <- & I).
    apply M in I. destruct I as (_ & Lj & _). apply in_seq. lia. }
  split; [|split].
  - unfold take. apply NoDup_map_NoDup_ForallPairs; auto.
    intros i i' I I' E. apply Ff, in_seq in I. apply Ff, in_seq in I'.
    apply (proj1 (NoDup_nth lkey VNaN) Nl); auto; lia.
  - unfold nrows. rewrite Ei, length_map, length_seq.
    pose proof (NoDup_incl_length Nf Ff) as Le.
    now rewrite length_map, length_seq in Le.
  - unfold nrows. rewrite Ei, length_map, length_seq.
    pose proof (NoDup_incl_length Ns Fs) as Le.
    now rewrite length_map, length_seq in Le.
Qed.

Ltac solve_all_text :=
  match goal with
  | |- all_text _ =>
      unfold all_text;
      repeat first
        [ apply Forall_nil | apply Forall_cons; [eexists; reflexivity|] ]
  end.

Ltac solve_NoDup :=
  match goal with
  | |- NoDup _ =>
      repeat first
        [ apply NoDup_nil
        | apply NoDup_cons; [simpl; intuition discriminate|] ]
  end.

Lemma load_all_data_distinct_tickers_witness :
  NoDup [VStr "ABT"; VStr "MMM"] /\
  nrows combined_example <= length [VStr "MMM"; VStr "AOS"; VStr "ABT"] /\
  nrows combined_example <= length [VStr "ABT"; VStr "ZTS"; VStr "MMM"].
Proof.
  apply (@load_all_data_distinct_tickers (example_sources scores_example)
           constituents_example scores_example combined_example);
    try reflexivity; try solve_all_text; try solve_NoDup.
Defined.

(** ** The optimiser adapter: objective, totals and keys *)

(** X13. [run_ef_model] never returns for an objective other than
    "Max Sharpe" and "Min Vol": no branch binds [asset_weights], and when
    every library call succeeds the run raises [UnboundLocalError]. *)
Theorem run_ef_model_other_objective (lib : PyPortfolioOpt)
    prices min_wt max_wt objective_fn risk_free_rate :
  objective_fn <> "Max Sharpe" ->
  objective_fn <> "Min Vol" ->
  (exists e,
      run_ef_model prices (min_wt, max_wt) objective_fn risk_free_rate =
      Raise e) /\
  (forall mu Sigma ef0 ef perf,
      mean_historical_return prices = Ok mu ->
      sample_cov prices = Ok Sigma ->
      CLA mu Sigma (min_wt, max_wt) = Ok ef0 ->
      plot_efficient_frontier ef0 = Ok ef ->
      portfolio_performance ef risk_free_rate = Ok perf ->
      run_ef_model prices (min_wt, max_wt) objective_fn risk_free_rate =
      Raise (UnboundLocalError "asset_weights")).
Proof.
  intros N1 N2. split.
  - destruct (run_ef_model prices (min_wt, max_wt) objective_fn
                risk_free_rate) as [report|e] eqn:H; [|now exists e].
    exfalso.
    now apply (@run_ef_model_unknown_objective lib prices min_wt max_wt
                 objective_fn risk_free_rate report).
  - intros mu Sigma ef0 ef perf Hm Hs Hc Hp Hf.
    unfold run_ef_model, solve. rewrite Hm. cbn [rbind]. rewrite Hs.
    cbn [rbind]. rewrite Hc. cbn [rbind]. rewrite Hp. cbn [rbind].
    apply String.eqb_neq in N1, N2. rewrite N1, N2. cbn [rbind snd fst].
    rewrite Hf. reflexivity.
Qed.

Lemma run_ef_model_other_objective_witness :
  (exists e,
      @run_ef_model bound_solver prices_AB (0%Q, (1 # 10)%Q) "Max Return"
        (65 # 1000)%Q = Raise e) /\
  @run_ef_model bound_solver prices_AB (0%Q, (1 # 10)%Q) "Max Return"
    (65 # 1000)%Q = Raise (UnboundLocalError "asset_weights").
Proof.
  assert (N1 : "Max Return" <> "Max Sharpe") by discriminate.
  assert (N2 : "Max Return" <> "Min Vol") by discriminate.
  split.
  - apply (proj1 (@run_ef_model_other_objective bound_solver prices_AB
                    0%Q (1 # 10)%Q "Max Return" (65 # 1000)%Q N1 N2)).
  - apply (proj2 (@run_ef_model_other_objective bound_solver prices_AB
                    0%Q (1 # 10)%Q "Max Return" (65 # 1000)%Q N1 N2)
             [("A", 0%Q); ("B", 0%Q)] tt
             (["A"; "B"], (0%Q, (1 # 10)%Q))
             (["A"; "B"], (0%Q, (1 # 10)%Q))
             (0%Q, 0%Q, 0%Q));
      reflexivity.
Defined.

Lemma total_weight_nonzero (w : weights) :
  (total_weight (filter nonzero w) == total_weight w)%Q.
Proof.
  unfold total_weight. induction w as [|kv w IH]; simpl; [reflexivity|].
  destruct (nonzero kv) eqn:E; simpl.
  - now rewrite IH.
  - unfold nonzero in E. apply negb_false_iff, Qeq_bool_iff in E.
    rewrite IH, E. ring.
Qed.

(** X14. Leaving the zero entries out does not change the total: the
    weights [run_ef_model] shows add up to the same sum as the weights it
    returns. *)
Theorem run_ef_model_total_weight (lib : PyPortfolioOpt)
    prices min_wt max_wt objective_fn risk_free_rate report :
  run_ef_model prices (min_wt, max_wt) objective_fn risk_free_rate =
    Ok report ->
  (total_weight (clean_wts report) == total_weight (asset_weights report))%Q.
Proof.
  intros H.
  destruct (run_ef_model_inv _ _ _ _ _ _ H)
    as (mu & Sigma & ef0 & ef & w & ef' & _ & _ & _ & _ & _ & Ew & Ec).
  rewrite Ec, Ew. apply total_weight_nonzero.
Qed.

Lemma run_ef_model_total_weight_witness :
  (total_weight (clean_wts report_max_sharpe) ==
   total_weight (asset_weights report_max_sharpe))%Q.
Proof.
  apply (@run_ef_model_total_weight bound_solver prices_AB 0%Q (1 # 10)%Q
           "Max Sharpe" (65 # 1000)%Q report_max_sharpe).
  reflexivity.
Defined.

(** X15. With a solver keyed by the price columns, the vector
    [run_ef_model] returns has one weight per column of the price table,
    in column order; when the columns are distinct, so are the keys of
    the dictionary it shows. *)
Theorem run_ef_model_keys (lib : PyPortfolioOpt) tol
    prices min_wt max_wt objective_fn risk_free_rate report :
  SolverContract lib tol ->
  run_ef_model prices (min_wt, max_wt) objective_fn risk_free_rate =
    Ok report ->
  map fst (asset_weights report) = columns prices /\
  (NoDup (columns prices) -> NoDup (map fst (clean_wts report))).
Proof.
  intros C H.
  destruct (@run_ef_model_solution lib tol prices min_wt max_wt
              objective_fn risk_free_rate report C H) as [Ek _].
  destruct (run_ef_model_inv _ _ _ _ _ _ H)
    as (mu & Sigma & ef0 & ef & w & ef' & _ & _ & _ & _ & _ & Ew & Ec).
  split; [exact Ek|]. intros N. rewrite Ec.
  apply NoDup_map_fst_filter. now rewrite <- Ew, Ek.
Qed.

Lemma run_ef_model_keys_witness :
  map fst (asset_weights report_max_sharpe) = columns prices_AB /\
  (NoDup (columns prices_AB) ->
   NoDup (map fst (clean_wts report_max_sharpe))).
Proof.
  apply (@run_ef_model_keys bound_solver 0 prices_AB 0%Q (1 # 10)%Q
           "Max Sharpe" (65 # 1000)%Q report_max_sharpe).
  - exact bound_solver_contract.
  - reflexivity.
Defined.

(** ** The price loader and the pipeline of [main] *)

Lemma getattr_inv df name s :
  pd.getattr df name = Ok s -> pd.getitem df name = Ok s.
Proof.
  unfold pd.getattr. destruct (pd.getitem df name); intros H; now inversion H.
Qed.

Lemma load_price_data_inv (sources : DataSources) filtered prices :
  load_price_data filtered = Ok prices ->
  exists tickers response adj_close,
    pd.getitem filtered "Symbol" = Ok tickers /\
    yf_download tickers "ytd" "1D" = Ok response /\
    In ("Adj Close", adj_close) response /\
    prices = pd.dropna_columns_all adj_close.
Proof.
  unfold load_price_data. intros H.
  destruct (pd.getattr filtered "Symbol") as [tickers|] eqn:T;
    try discriminate. cbn [rbind] in H.
  destruct (yf_download tickers "ytd" "1D") as [response|] eqn:R;
    try discriminate. cbn [rbind] in H.
  destruct (getitem_field response "Adj Close") as [adj|] eqn:A;
    try discriminate. cbn [rbind] in H. inversion H; subst prices.
  exists tickers, response, adj. repeat split; auto.
  - now apply getattr_inv.
  - unfold getitem_field in A.
    destruct (find _ response) as [c|] eqn:F; try discriminate.
    inversion A; subst adj. apply find_some in F. destruct F as [I E].
    apply String.eqb_eq in E. destruct c as [f d]. simpl in *. now subst.
Qed.

(** X16. What [load_price_data] raises: [AttributeError] when the table
    it is given has no [Symbol] column, the provider's own error when the
    download fails, and [KeyError] when the answer has no adjusted-close
    field. *)
Theorem load_price_data_failure (sources : DataSources) filtered :
  (~ In "Symbol" (columns filtered) ->
   load_price_data filtered = Raise (AttributeError "Symbol")) /\
  (forall tickers e,
      pd.getitem filtered "Symbol" = Ok tickers ->
      yf_download tickers "ytd" "1D" = Raise e ->
      load_price_data filtered = Raise e) /\
  (forall tickers response,
      pd.getitem filtered "Symbol" = Ok tickers ->
      yf_download tickers "ytd" "1D" = Ok response ->
      ~ In "Adj Close" (map fst response) ->
      load_price_data filtered = Raise (KeyError "Adj Close")).
Proof.
  unfold load_price_data, pd.getattr. split; [|split].
  - intros N. now rewrite (@getitem_missing filtered _ N).
  - intros tickers e T R. rewrite T. cbn [rbind]. now rewrite R.
  - intros tickers response T R N. rewrite T. cbn [rbind]. rewrite R.
    cbn [rbind]. unfold getitem_field.
    destruct (find _ response) as [c|] eqn:F; auto.
    apply find_some in F. destruct F as [I E].
    apply String.eqb_eq in E. exfalso. apply N. rewrite <- E.
    now apply in_map.
Qed.

Lemma load_price_data_failure_witness :
  @load_price_data unreachable_sources scores_without_key =
    Raise (AttributeError "Symbol") /\
  @load_price_data unreachable_sources filtered_A =
    Raise (KeyError "Adj Close").
Proof.
  split.
  - apply (proj1 (load_price_data_failure unreachable_sources
                    scores_without_key)).
    simpl. intuition discriminate.
  - apply (proj2 (proj2 (load_price_data_failure unreachable_sources
                           filtered_A)) [VStr "A"] []).
    + reflexivity.
    + reflexivity.
    + simpl. tauto.
Defined.

Lemma clean_data_score_at df S t out i :
  clean_data_frame df S t = Ok out ->
  i < nrows out ->
  exists q, cell_at out "esg_score" i = Some (VNum q) /\
            (inject_Z t < q)%Q.
Proof.
  intros H K.
  destruct (@clean_data_score_column df S t out i H K)
    as (s & Gs & Ls & Fs).
  unfold cell_at. rewrite Gs.
  destruct (nth_error s i) as [c|] eqn:Ni.
  - apply nth_error_In in Ni. rewrite Forall_forall in Fs.
    destruct (Fs _ Ni) as (q & -> & Lt). now exists q.
  - apply nth_error_None in Ni. unfold nrows in *. exfalso. lia.
Qed.

(** X17. The pipeline of [main] (filter, price download, optimisation):
    with a provider that answers only for the tickers it is asked for and
    a solver keyed by the price columns, every ticker in the weights shown
    has price data and is the [Symbol] of a row of the filtered universe,
    whose score is above the minimum and whose category is not excluded. *)
Theorem pipeline_weights_from_filtered_universe
    (sources : DataSources) (lib : PyPortfolioOpt) tol
    universe S t filtered prices min_wt max_wt objective_fn risk_free_rate
    report k v :
  ProviderContract sources ->
  SolverContract lib tol ->
  well_formed universe ->
  clean_data_on universe S t = Ok filtered ->
  load_price_data filtered = Ok prices ->
  run_ef_model prices (min_wt, max_wt) objective_fn risk_free_rate =
    Ok report ->
  In (k, v) (clean_wts report) ->
  (exists s, In (k, s) (data prices) /\ exists c, In c s /\ c <> VNaN) /\
  exists i,
    cell_at filtered "Symbol" i = Some (VStr k) /\
    (exists q, cell_at filtered "esg_score" i = Some (VNum q) /\
               (inject_Z t < q)%Q) /\
    (forall x, cell_at filtered "GICS Sub-Industry" i = Some (VStr x) ->
               ~ In x S).
Proof.
  intros P C W Hc Hl Hr Ik. rewrite clean_data_on_frame in Hc.
  (* the ticker is a column of the price table *)
  destruct (@run_ef_model_solution lib tol prices min_wt max_wt
              objective_fn risk_free_rate report C Hr) as [Ek _].
  destruct (run_ef_model_inv _ _ _ _ _ _ Hr)
    as (mu & Sigma & ef0 & ef & w & ef' & _ & _ & _ & _ & _ & Ew & Ec).
  assert (Ip : In k (columns prices)).
  { rewrite <- Ek, Ew. rewrite Ec in Ik. apply filter_In in Ik.
    change k with (fst (k, v)). apply in_map. tauto. }
  unfold columns in Ip. apply in_map_iff in Ip.
  destruct Ip as ([k' s] & Ek' & Is). cbn [fst] in Ek'. subst k'.
  (* hence one of the tickers asked for *)
  destruct (@load_price_data_inv sources filtered prices Hl)
    as (tickers & response & adj & T & R & Ia & ->).
  cbn [pd.dropna_columns_all data] in Is.
  apply filter_In in Is. destruct Is as [Is Ns]. cbn [snd] in Ns.
  assert (It : In (VStr k) tickers).
  { apply (P tickers "ytd" "1D" response "Adj Close" adj k R Ia).
    unfold columns. change k with (fst (k, s)). now apply in_map. }
  split.
  { exists s. split.
    - cbn [pd.dropna_columns_all data]. apply filter_In. auto.
    - now apply existsb_notna_iff. }
  (* hence the symbol of a row of the filtered universe *)
  apply In_nth_error in It. destruct It as (i & Ni).
  destruct (@clean_data_frame_selected universe S t filtered W Hc)
    as (g & e & above & _ & _ & _ & _ & _ & _ & Ef).
  assert (Wf : well_formed filtered)
    by (rewrite Ef; now apply selected_rows_well_formed).
  pose proof (@well_formed_column_length filtered _ tickers Wf T) as Lt.
  assert (Li : i < nrows filtered).
  { rewrite <- Lt. apply nth_error_Some. congruence. }
  exists i. split; [|split].
  - unfold cell_at. now rewrite T.
  - now apply (@clean_data_score_at universe S t filtered i).
  - intros x Hx. unfold cell_at in Hx.
    destruct (pd.getitem filtered "GICS Sub-Industry") as [col|] eqn:G;
      try discriminate.
    pose proof (@clean_data_category_column universe S t filtered col
                  Hc (proj1 W) G) as F.
    apply nth_error_In in Hx. rewrite Forall_forall in F.
    specialize (F _ Hx). simpl in F. intros I.
    apply has_label_In in I. congruence.
Qed.

Lemma answering_sources_contract : ProviderContract answering_sources.
Proof.
  intros tickers period interval response field frame l R I Il.
  simpl in R. inversion R; subst response; clear R.
  destruct I as [I|[]]. inversion I; subst field frame; clear I.
  unfold columns, requested in Il. cbn [data] in Il.
  apply in_map_iff in Il. destruct Il as (c & <- & Ic).
  apply filter_In in Ic. destruct Ic as [_ E].
  apply existsb_exists in E. destruct E as (c' & I' & E).
  apply cell_eqb_text in E. now subst.
Qed.

Lemma pipeline_weights_from_filtered_universe_witness :
  (exists s, In ("A", s) (data prices_A) /\ exists c, In c s /\ c <> VNaN) /\
  exists i,
    cell_at filtered_A "Symbol" i = Some (VStr "A") /\
    (exists q, cell_at filtered_A "esg_score" i = Some (VNum q) /\
               (inject_Z 80 < q)%Q) /\
    (forall x, cell_at filtered_A "GICS Sub-Industry" i = Some (VStr x) ->
               ~ In x ["Y"]).
Proof.
  apply (@pipeline_weights_from_filtered_universe answering_sources
           bound_solver 0 universe_AB ["Y"] 80%Z filtered_A prices_A
           0%Q (1 # 10)%Q "Max Sharpe" (65 # 1000)%Q report_A
           "A" (1 # 10)%Q).
  - exact answering_sources_contract.
  - exact bound_solver_contract.
  - exact universe_AB_well_formed.
  - reflexivity.
  - reflexivity.
  - reflexivity.
  - simpl. auto.
Defined.

Lemma select_incl {A} (mask : list bool) (xs : list A) x :
  In x (select mask xs) -> In x xs.
Proof.
  revert xs.
  induction mask as [|b mask IH]; intros [|y xs]; simpl; try tauto.
  destruct b; simpl; intros H.
  - destruct H; auto.
  - auto.
Qed.

(** X18. The first two stages of [main] (join, then filter): every ticker
    of the filtered universe is listed in the constituents table and in
    the score table. *)
Theorem filtered_universe_tickers (sources : DataSources)
    snp esg combined S t filtered lkey rkey tickers s :
  load_snp_data = Ok snp ->
  load_esg_scores = Ok esg ->
  load_all_data = Ok combined ->
  well_formed combined ->
  clean_data_on combined S t = Ok filtered ->
  pd.getitem snp "Symbol" = Ok lkey ->
  pd.getitem esg "Symbol" = Ok rkey ->
  pd.getitem filtered "Symbol" = Ok tickers ->
  In (VStr s) tickers ->
  In (VStr s) lkey /\ In (VStr s) rkey.
Proof.
  intros Hs He Ha W Hc L R T I. rewrite clean_data_on_frame in Hc.
  pose proof (@load_all_data_joined sources snp esg combined Hs He Ha)
    as J.
  pose proof J as J'.
  destruct J' as (lkey' & rkey' & ps & L' & R' & Np & M & Ei & Ed & K & Sd).
  apply (@inner_join_tickers snp esg combined lkey rkey _ s J L R K).
  destruct (@clean_data_frame_selected combined S t filtered W Hc)
    as (g & e & above & _ & _ & _ & _ & _ & _ & ->).
  apply getitem_In in T.
  unfold selected_rows in T.
  cbn [pd.reset_index_drop pd.dropna_columns_all data] in T.
  apply filter_In in T. destruct T as [T _].
  apply in_map_iff in T. destruct T as (c & Ec & Ic).
  apply filter_In in Ic. destruct Ic as [Ic _].
  inversion Ec as [[El Es]]. subst tickers.
  apply select_incl in I.
  replace (take (map fst ps) lkey') with (snd c); auto.
  apply (@NoDup_fst_functional _ (data combined) "Symbol"); auto.
  - apply (proj1 W).
  - rewrite <- El. destruct c; auto.
  - now apply getitem_In.
Qed.

Lemma filtered_universe_tickers_witness :
  In (VStr "ABT") [VStr "MMM"; VStr "AOS"; VStr "ABT"] /\
  In (VStr "ABT") [VStr "ABT"; VStr "ZTS"; VStr "MMM"].
Proof.
  apply (@filtered_universe_tickers full_sources constituents_full
           scores_full combined_full ["Tobacco"] 80%Z filtered_full
           [VStr "MMM"; VStr "AOS"; VStr "ABT"]
           [VStr "ABT"; VStr "ZTS"; VStr "MMM"] [VStr "ABT"] "ABT");
    try reflexivity.
  - solve_well_formed.
  - simpl. auto.
Defined.

(** ** Showing the filtered universe *)

Lemma selected_rows_getitem mask df label s :
  has_label admin_labels label = false ->
  pd.getitem df label = Ok s ->
  existsb notna (select mask s) = true ->
  pd.getitem (selected_rows mask df) label = Ok (select mask s).
Proof.
  intros N G E. unfold pd.getitem in *.
  destruct (find _ (data df)) as [c|] eqn:F; try discriminate.
  inversion G; subst s; clear G.
  unfold selected_rows.
  cbn [pd.reset_index_drop pd.dropna_columns_all data].
  rewrite find_filter_keep with (c := (fst c, select mask (snd c))); auto.
  pose proof (fun d' => find_map_snd (@select cell mask)
                          (fun x => String.eqb x label) d') as Fm.
  cbn beta in Fm. rewrite Fm. clear Fm.
  rewrite find_filter_implied.
  2:{ intros x Ex. apply String.eqb_eq in Ex. now rewrite Ex, N. }
  now rewrite F.
Qed.

Lemma existsb_notna_In (s : Series) c :
  In c s -> c <> VNaN -> existsb notna s = true.
Proof. intros I N. apply existsb_notna_iff. now exists c. Qed.

(** X19. [display_filtered_universe] reads the [Symbol] column first: on
    the table [clean_data] returns when no row passes it raises
    [AttributeError] and shows nothing; when a row with a ticker passes,
    it shows the table. *)
Theorem display_filtered_universe_symbol
    (filedownload : DataFrame -> string -> string -> string)
    df S t out :
  clean_data_on df S t = Ok out ->
  (nrows out = 0 ->
   display_filtered_universe filedownload out =
     Raise (AttributeError "Symbol")) /\
  (forall symbols g e i c,
      well_formed df ->
      pd.getitem df "Symbol" = Ok symbols ->
      pd.getitem df "GICS Sub-Industry" = Ok g ->
      pd.getitem df "esg_score" = Ok e ->
      nth_error (row_mask S t g e) i = Some true ->
      nth_error symbols i = Some c -> c <> VNaN ->
      exists events,
        display_filtered_universe filedownload out = Ok events /\
        In (StDataframe out) events).
Proof.
  rewrite clean_data_on_frame. intros H. split.
  - intros Hz.
    destruct (clean_data_frame_inv _ _ _ H)
      as (g & f2 & esg & above & _ & _ & _ & _ & _ & _ & La & ->).
    assert (Hz' : length (select above (index f2)) = 0).
    { revert Hz. unfold nrows, pd.reset_index_drop, pd.dropna_columns_all.
      cbn [index]. now rewrite length_map, length_seq. }
    unfold nrows in La. clear H Hz.
    unfold display_filtered_universe, pd.getattr, pd.getitem.
    cbn [pd.reset_index_drop pd.dropna_columns_all data].
    replace (filter _ _) with (@nil (string * list cell)); [reflexivity|].
    induction (data f2) as [|c d IH]; simpl; auto.
    now rewrite (@select_none _ _ above (index f2) (snd c) La Hz').
  - intros symbols g e i c W Sy G E M Ni Nc.
    destruct (@clean_data_frame_selected df S t out W H)
      as (g' & e' & above & G' & E' & _ & _ & _ & _ & ->).
    rewrite G in G'. inversion G'; subst g'.
    rewrite E in E'. inversion E'; subst e'.
    unfold display_filtered_universe, pd.getattr.
    rewrite (@selected_rows_getitem (row_mask S t g e) df "Symbol" symbols);
      auto.
    + cbn [rbind]. eexists. split; [reflexivity|]. simpl. auto.
    + apply existsb_notna_In with (c := c); auto.
      now apply select_In with (i := i).
Qed.

Lemma display_filtered_universe_symbol_witness :
  display_filtered_universe (fun _ name _ => name) empty_frame =
    Raise (AttributeError "Symbol") /\
  exists events,
    display_filtered_universe (fun _ name _ => name) filtered_A =
      Ok events /\
    In (StDataframe filtered_A) events.
Proof.
  split.
  - apply (proj1 (@display_filtered_universe_symbol (fun _ name _ => name)
                    universe_AB ["Y"] 95%Z empty_frame eq_refl)).
    reflexivity.
  - apply (proj2 (@display_filtered_universe_symbol (fun _ name _ => name)
                    universe_AB ["Y"] 80%Z filtered_A eq_refl)
             [VStr "A"; VStr "B"] [VStr "X"; VStr "Y"]
             [VNum (inject_Z 90); VNum (inject_Z 70)] 0 (VStr "A"));
      try reflexivity.
    + exact universe_AB_well_formed.
    + discriminate.
Defined.

Example display_filtered_universe_A :
  display_filtered_universe (fun _ name _ => name) filtered_A =
  Ok [ StHeader "Universe";
       StWrite "Data Dimension: 1 rows and 4 columns.";
       StDataframe filtered_A;
       StMarkdown "SP500.csv" ].
Proof. reflexivity. Qed.

Example display_nothing_left :
  clean_data_on universe_AB ["Y"] 95 = Ok empty_frame /\
  display_filtered_universe (fun _ name _ => name) empty_frame =
    Raise (AttributeError "Symbol").
Proof. split; reflexivity. Qed.
